(** * The categorical [Encoder] of [automl/datautils.py]

    A shallow embedding of the class [Encoder] (construction, [fit],
    [transform], [inverse_transform]) and of the behaviour it relies on from
    numpy and scikit-learn, followed by the properties of the encoder.

    Conventions of the embedding.
    - A Python value that can sit in a column or in an encoded result is a
      [cell].  Numbers are integer-valued: a number of a list is a Python
      [int], and whether the numbers of an array are integers or floats is
      told by the dtype of the array; [NaN] stands for the object [np.NaN];
      [Row] is one row of an indicator matrix.
    - An argument of [transform] is a [pyobj]: a single value ([Atom]) or a
      sequence ([Seq], a Python list).  Where the source turns a list into
      a numpy array the array gets the dtype numpy infers ([np_array]), and
      a value assigned into an array is cast to that dtype ([np_cast]): a
      string is cut to the width of a string array, and a value that an
      integer array cannot hold raises.
    - Exceptions are values of [exn]; a computation that may raise returns a
      [result].  An instance on which a method raised is not used again, so
      a method returns either the instance after the call or the exception.
    - The encoders of scikit-learn are not part of the repository.  They are
      modelled from the contract the specification gives for them (section 6):
      [fit] on classes, [transform] of values to integer codes or indicator
      rows, [inverse_transform] back.  The rank of the arrays handed to them
      is not modelled. *)

From Stdlib Require Import List String Ascii ZArith Bool Lia DecimalString.
Import ListNotations.
Local Open Scope string_scope.
Local Open Scope Z_scope.
Local Open Scope list_scope.

(** ** Python values, exceptions *)

Inductive cell : Type :=
| NoneV : cell
| Str : string -> cell
| Num : Z -> cell
| NaN : cell
| Row : list Z -> cell.

Inductive pyobj : Type :=
| Atom : cell -> pyobj
| Seq : list cell -> pyobj.

Inductive exn : Type :=
| AssertionError
| ValueError
| TypeError
| IndexError
| NotFittedError.

Inductive result (A : Type) : Type :=
| OK : A -> result A
| Raise : exn -> result A.
Arguments OK {A} _.
Arguments Raise {A} _.

Definition bind {A B : Type} (r : result A) (k : A -> result B) : result B :=
  match r with
  | OK a => k a
  | Raise e => Raise e
  end.

Notation "x <- r ;; k" := (bind r (fun x => k))
  (at level 61, r at next level, right associativity).

Fixpoint mapM {A B : Type} (f : A -> result B) (xs : list A) : result (list B) :=
  match xs with
  | [] => OK []
  | x :: xs' => y <- f x ;; ys <- mapM f xs' ;; OK (y :: ys)
  end.

(** The type objects that can be passed as [encoded_type]. *)
Inductive pytype : Type :=
| py_int
| py_float
| py_other (name : string).

Definition pytype_eqb (a b : pytype) : bool :=
  match a, b with
  | py_int, py_int => true
  | py_float, py_float => true
  | py_other n, py_other m => String.eqb n m
  | _, _ => false
  end.

(** ** Equality and order of cells *)

Fixpoint list_Z_eqb (a b : list Z) : bool :=
  match a, b with
  | [], [] => true
  | x :: a', y :: b' => Z.eqb x y && list_Z_eqb a' b'
  | _, _ => false
  end.

(** [==] between two values. *)
Definition cell_eqb (a b : cell) : bool :=
  match a, b with
  | NoneV, NoneV => true
  | Str s, Str t => String.eqb s t
  | Num x, Num y => Z.eqb x y
  | NaN, NaN => true
  | Row r, Row q => list_Z_eqb r q
  | _, _ => false
  end.

(** [<] between two values; [None] where Python raises [TypeError] (a [None]
    on either side) or where the column is not homogeneous. *)
Definition py_lt (a b : cell) : option bool :=
  match a, b with
  | Str s, Str t => Some (String.ltb s t)
  | Num x, Num y => Some (Z.ltb x y)
  | _, _ => None
  end.

(** [v in s] for a set [s] given by its elements. *)
Definition py_in (v : cell) (s : list cell) : bool := existsb (cell_eqb v) s.

(** ** numpy *)

(** Insertion of one value into a sorted list without duplicates. *)
Fixpoint insert_unique (v : cell) (cs : list cell) : result (list cell) :=
  match cs with
  | [] => OK [v]
  | c :: cs' =>
      match py_lt v c, py_lt c v with
      | Some true, _ => OK (v :: cs)
      | Some false, Some true => cs'' <- insert_unique v cs' ;; OK (c :: cs'')
      | Some false, Some false => OK cs
      | _, _ => Raise TypeError
      end
  end.

(** [np.unique(xs)]: the sorted distinct values of [xs]. *)
Fixpoint np_unique (xs : list cell) : result (list cell) :=
  match xs with
  | [] => OK []
  | x :: xs' => cs <- np_unique xs' ;; insert_unique x cs
  end.

(** The dtypes of the arrays met by the encoder: [int64], [float64], a
    string of fixed width, [object], and the dtype of another type object
    passed as [encoded_type]. *)
Inductive dtype : Type :=
| dt_int
| dt_float
| dt_str (width : nat)
| dt_object
| dt_other (name : string).

(** A one-dimensional array: its dtype and its values. *)
Record ndarray : Type := mk_ndarray {
  arr_dtype : dtype;
  items : list cell
}.

Definition is_str (c : cell) : bool :=
  match c with Str _ => true | _ => false end.

Definition is_num (c : cell) : bool :=
  match c with Num _ => true | _ => false end.

Definition is_num_or_nan (c : cell) : bool :=
  match c with Num _ | NaN => true | _ => false end.

Definition str_width (c : cell) : nat :=
  match c with Str s => String.length s | _ => O end.

(** The dtype numpy infers for a list: [float64] for the empty list, a
    string as wide as the longest one (and at least one character wide) for
    strings, [int64] for numbers, [float64] for numbers with a NaN,
    [object] for a list that holds a [None].  A list that mixes strings and
    numbers is not modelled further (numpy would spell its numbers as
    strings): it keeps its values under the dtype [object]. *)
Definition np_dtype (xs : list cell) : dtype :=
  match xs with
  | [] => dt_float
  | _ =>
      if forallb is_str xs
      then dt_str (Nat.max 1 (fold_right Nat.max O (map str_width xs)))
      else if forallb is_num xs then dt_int
      else if forallb is_num_or_nan xs then dt_float
      else dt_object
  end.

(** [np.array(xs)] for a list. *)
Definition np_array (xs : list cell) : ndarray := mk_ndarray (np_dtype xs) xs.

(** The first [w] characters of a string. *)
Fixpoint truncate (w : nat) (s : string) : string :=
  match w, s with
  | S w', String a s' => String a (truncate w' s')
  | _, _ => EmptyString
  end.

(** [str(v)] for the values a string array is assigned. *)
Definition py_str (v : cell) : string :=
  match v with
  | Str s => s
  | Num z => NilZero.string_of_int (Z.to_int z)
  | NoneV => "None"
  | NaN => "nan"
  | Row _ => EmptyString
  end.

Definition is_space (a : ascii) : bool :=
  let n := nat_of_ascii a in
  Nat.eqb n 32 || (Nat.leb 9 n && Nat.leb n 13).

Fixpoint lstrip (s : string) : string :=
  match s with
  | String a s' => if is_space a then lstrip s' else s
  | EmptyString => s
  end.

Fixpoint rev_append (s acc : string) : string :=
  match s with
  | String a s' => rev_append s' (String a acc)
  | EmptyString => acc
  end.

(** [s.strip()] for the blanks of ASCII. *)
Definition strip (s : string) : string :=
  rev_append (lstrip (rev_append (lstrip s) EmptyString)) EmptyString.

Definition digit_of (a : ascii) : option Z :=
  let n := nat_of_ascii a in
  if Nat.leb 48 n && Nat.leb n 57 then Some (Z.of_nat (n - 48)) else None.

(** Decimal digits, single underscores allowed between two digits. *)
Fixpoint digits (s : string) (acc : Z) (after_digit : bool) : option Z :=
  match s with
  | EmptyString => if after_digit then Some acc else None
  | String a s' =>
      match digit_of a with
      | Some n => digits s' (10 * acc + n) true
      | None =>
          if Ascii.eqb a "_" && after_digit then digits s' acc false
          else None
      end
  end.

(** [int(s)]: blanks around, an optional sign, decimal digits. *)
Definition py_int_of_string (s : string) : option Z :=
  match strip s with
  | String "+" r => digits r 0 false
  | String "-" r => option_map Z.opp (digits r 0 false)
  | r => digits r 0 false
  end.

Definition lower (a : ascii) : ascii :=
  let n := nat_of_ascii a in
  if Nat.leb 65 n && Nat.leb n 90 then ascii_of_nat (n + 32) else a.

Fixpoint lower_string (s : string) : string :=
  match s with
  | String a s' => String (lower a) (lower_string s')
  | EmptyString => EmptyString
  end.

(** [float(s)], for the numbers of the model: the spellings of an integer
    and of NaN.  A spelling with a fraction, an exponent or an infinity
    denotes no number of the model and is refused with the others. *)
Definition py_float_of_string (s : string) : option cell :=
  match py_int_of_string s with
  | Some z => Some (Num z)
  | None =>
      match lower_string (strip s) with
      | "nan" | "+nan" | "-nan" => Some NaN
      | _ => None
      end
  end.

(** The value an array of dtype [d] holds once [v] is assigned into it: an
    [object] array keeps it, a string array keeps the first characters of
    [str(v)], a number array converts it or raises. *)
Definition np_cast (d : dtype) (v : cell) : result cell :=
  match d, v with
  | dt_object, _ => OK v
  | dt_other _, _ => OK v
  | _, Row _ => Raise ValueError
  | dt_str w, _ => OK (Str (truncate w (py_str v)))
  | dt_int, Num z => OK (Num z)
  | dt_int, Str s =>
      match py_int_of_string s with
      | Some z => OK (Num z)
      | None => Raise ValueError
      end
  | dt_int, NoneV => Raise TypeError
  | dt_int, NaN => Raise ValueError
  | dt_float, Num z => OK (Num z)
  | dt_float, Str s =>
      match py_float_of_string s with
      | Some c => OK c
      | None => Raise ValueError
      end
  | dt_float, NoneV => OK NaN
  | dt_float, NaN => OK NaN
  end.

(** [np.insert(vec, 0, v)] for a list [vec]: the list becomes an array and
    [v] is cast to its dtype. *)
Definition np_insert0 (vec : list cell) (v : cell) : result (list cell) :=
  c <- np_cast (np_dtype vec) v ;; OK (c :: vec).

(** The values of an array once [c] is written where the mask holds. *)
Fixpoint write_mask (xs : list cell) (mask : list bool) (c : cell)
  : result (list cell) :=
  match xs, mask with
  | [], [] => OK []
  | x :: xs', m :: mask' =>
      r <- write_mask xs' mask' c ;; OK ((if m then c else x) :: r)
  | _, _ => Raise IndexError
  end.

(** [a[mask] = v] for a boolean mask: [v] is cast to the dtype of [a]. *)
Definition set_mask (a : ndarray) (mask : list bool) (v : cell)
  : result ndarray :=
  c <- np_cast (arr_dtype a) v ;;
  r <- write_mask (items a) mask c ;;
  OK (mk_ndarray (arr_dtype a) r).

(** [nvec[mask]] for a boolean mask. *)
Fixpoint get_mask (xs : list cell) (mask : list bool) : result (list cell) :=
  match xs, mask with
  | [], [] => OK []
  | x :: xs', m :: mask' =>
      r <- get_mask xs' mask' ;; OK (if m then x :: r else r)
  | _, _ => Raise IndexError
  end.

(** The dtype of [res.astype(t)]. *)
Definition dtype_of (t : pytype) : dtype :=
  match t with
  | py_int => dt_int
  | py_float => dt_float
  | py_other n => dt_other n
  end.

(** [res.astype(t)]: the numbers keep their value and the array gets the
    dtype of [t]. *)
Definition astype (res : ndarray) (t : pytype) : ndarray :=
  mk_ndarray (dtype_of t) (items res).

(** The values of an array-like argument; a single value that is not an
    array is refused.  A [Row] taken out of a matrix is a one-dimensional
    array of numbers. *)
Definition as_seq (err : exn) (vec : pyobj) : result (list cell) :=
  match vec with
  | Seq xs => OK xs
  | Atom (Row r) => OK (map Num r)
  | Atom _ => Raise err
  end.

(** [v[0]]. *)
Definition index0 (v : pyobj) : result pyobj :=
  match v with
  | Seq (c :: _) => OK (Atom c)
  | Seq [] => Raise IndexError
  | Atom (Row (z :: _)) => OK (Atom (Num z))
  | Atom (Row []) => Raise IndexError
  | Atom (Str (String a _)) => OK (Atom (Str (String a EmptyString)))
  | Atom (Str EmptyString) => Raise IndexError
  | Atom _ => Raise TypeError
  end.

(** ** The delegate encoders of scikit-learn *)

Inductive dkind : Type :=
| LabelEncoder
| OrdinalEncoder
| LabelBinarizer
| OneHotEncoder_ignore.  (* OneHotEncoder(handle_unknown='ignore') *)

(** An estimator object: its class and, once fitted, its classes. *)
Record estimator : Type := mk_estimator {
  est_kind : dkind;
  est_classes : option (list cell)
}.

Definition new_estimator (k : dkind) : estimator := mk_estimator k None.

(** Modelled from the spec: the dtype of what [transform] of an encoder
    returns.  Codes are integers, as those of [LabelEncoder], which the
    source also takes under the name [OrdinalEncoder] when scikit-learn has
    none (lines 5-8); the rows of [LabelBinarizer] are integers and those of
    [OneHotEncoder] are floats. *)
Definition codes_dtype (k : dkind) : dtype :=
  match k with
  | LabelEncoder | OrdinalEncoder | LabelBinarizer => dt_int
  | OneHotEncoder_ignore => dt_float
  end.

Fixpoint index_of (v : cell) (cs : list cell) : option nat :=
  match cs with
  | [] => None
  | c :: cs' =>
      if cell_eqb c v then Some O
      else match index_of v cs' with
           | Some i => Some (S i)
           | None => None
           end
  end.

(** The indicator row of width [n] with a one at column [i]. *)
Fixpoint indicator (n i : nat) : list Z :=
  match n with
  | O => []
  | S n' =>
      match i with
      | O => 1 :: repeat 0 n'
      | S i' => 0 :: indicator n' i'
      end
  end.

(** The first column of a row that holds a non-zero entry. *)
Fixpoint hot_column (r : list Z) : option nat :=
  match r with
  | [] => None
  | z :: r' =>
      if Z.eqb z 0
      then match hot_column r' with
           | Some i => Some (S i)
           | None => None
           end
      else Some O
  end.

(** Modelled from the spec: the encoding of one value by a fitted
    scikit-learn encoder (ordinal and label encoding map each class to a
    distinct integer code in sorted order; one-hot and binarizing encoding
    produce an indicator row with one column per class; an unseen value is
    encoded as the zero row by the one-hot encoder that ignores unknown
    categories, and is a failure for the others). *)
Definition encode_one (k : dkind) (cs : list cell) (v : cell) : result cell :=
  match index_of v cs with
  | Some i =>
      match k with
      | LabelEncoder | OrdinalEncoder => OK (Num (Z.of_nat i))
      | LabelBinarizer | OneHotEncoder_ignore =>
          OK (Row (indicator (List.length cs) i))
      end
  | None =>
      match k with
      | OneHotEncoder_ignore => OK (Row (repeat 0 (List.length cs)))
      | _ => Raise ValueError
      end
  end.

(** Modelled from the spec: the decoding of one code or indicator row by a
    fitted scikit-learn encoder. *)
Definition decode_one (k : dkind) (cs : list cell) (c : cell) : result cell :=
  match k, c with
  | (LabelEncoder | OrdinalEncoder), Num i =>
      if Z.ltb i 0 then Raise ValueError
      else match nth_error cs (Z.to_nat i) with
           | Some v => OK v
           | None => Raise ValueError
           end
  | (LabelBinarizer | OneHotEncoder_ignore), Row r =>
      if Nat.eqb (List.length r) (List.length cs)
      then match hot_column r with
           | Some i =>
               match nth_error cs i with
               | Some v => OK v
               | None => Raise ValueError
               end
           | None =>
               match k with
               | OneHotEncoder_ignore => OK NoneV
               | _ => match cs with
                      | v :: _ => OK v
                      | [] => Raise ValueError
                      end
               end
           end
      else Raise ValueError
  | _, _ => Raise ValueError
  end.

(** Modelled from the spec: [est.fit(classes)] of a scikit-learn encoder;
    the estimator keeps the sorted distinct values it is given. *)
Definition est_fit (est : estimator) (xs : list cell) : result estimator :=
  cs <- np_unique xs ;; OK (mk_estimator (est_kind est) (Some cs)).

(** Modelled from the spec: [est.transform(values)] of a scikit-learn
    encoder; the result is an array with one entry per value. *)
Definition est_transform (est : estimator) (vec : pyobj)
  : result (list cell) :=
  xs <- as_seq ValueError vec ;;
  match est_classes est with
  | None => Raise NotFittedError
  | Some cs => mapM (encode_one (est_kind est) cs) xs
  end.

(** Modelled from the spec: [est.inverse_transform(codes)] of a scikit-learn
    encoder. *)
Definition est_inverse_transform (est : estimator) (vec : pyobj)
  : result (list cell) :=
  ys <- as_seq ValueError vec ;;
  match est_classes est with
  | None => Raise NotFittedError
  | Some cs => mapM (decode_one (est_kind est) cs) ys
  end.

(** [est.fit_transform(classes)]: the fitted estimator and the codes. *)
Definition est_fit_transform (est : estimator) (xs : list cell)
  : result (estimator * list cell) :=
  est' <- est_fit est xs ;;
  r <- est_transform est' (Seq xs) ;;
  OK (est', r).

(** ** The class [Encoder] *)

Module Encoder.

(** The attributes of an instance.  [classes], [_enc_classes_] and
    [missing_encoded_value] are [None] until [fit] assigns them; the
    estimators in [str_encoder] and [delegate] carry their own fitted
    state. *)
Record t : Type := mk {
  for_target : bool;
  missing_handle : string;
  missing_values : list cell;
  missing_replaced_by : cell;
  missing_encoded_value : option cell;
  encoded_type : pytype;
  str_encoder : option estimator;
  classes : option (list cell);
  _enc_classes_ : option (list cell);
  delegate : option estimator
}.

(** [Encoder(type, target, encoded_type, missing_handle, missing_values,
    missing_replaced_by)].  [missing_values] is [None] for the Python
    default [None]. *)
Definition __init__ (type : string) (target : bool) (encoded_type : pytype)
    (missing_handle : string) (missing_values : option (list cell))
    (missing_replaced_by : cell) : result t :=
  if negb (existsb (String.eqb missing_handle) ["ignore"; "mask"; "encode"])
  then Raise AssertionError
  else
    let self_missing_values :=
      match missing_values with
      | Some (v :: vs) => (v :: vs) ++ [NoneV]
      | _ => [NoneV]
      end in
    let self_encoded_type := if target then py_int else encoded_type in
    let self (str_encoder delegate : option estimator) :=
      mk target missing_handle self_missing_values missing_replaced_by None
         self_encoded_type str_encoder None None delegate in
    if String.eqb type "label" then
      OK (self None
            (Some (new_estimator
                     (if target then LabelEncoder else OrdinalEncoder))))
    else if String.eqb type "one-hot" then
      OK (self (if target then None else Some (new_estimator OrdinalEncoder))
            (Some (new_estimator
                     (if target then LabelBinarizer
                      else OneHotEncoder_ignore))))
    else if String.eqb type "no-op" then
      OK (self None None)
    else Raise ValueError.

Definition _ignore_missing (self : t) : bool :=
  for_target self || String.eqb (missing_handle self) "ignore".

Definition _mask_missing (self : t) : bool :=
  negb (for_target self) && String.eqb (missing_handle self) "mask".

Definition _encode_missing (self : t) : bool :=
  negb (for_target self) && String.eqb (missing_handle self) "encode".

(** [self.fit(vec)]; the result is the instance after the call. *)
Definition fit (self : t) (vec : list cell) : result t :=
  match delegate self with
  | None => OK self
  | Some d =>
      cls <- (if _ignore_missing self then np_unique vec
              else vec' <- np_insert0 vec (missing_replaced_by self) ;;
                   np_unique vec') ;;
      se_enc <- match str_encoder self with
                | Some se =>
                    r <- est_fit_transform se cls ;;
                    OK (Some (fst r), snd r)
                | None => OK (None, cls)
                end ;;
      if _mask_missing self then
        r <- est_fit_transform d cls ;;
        first <- index0 (Seq (snd r)) ;;
        OK (mk (for_target self) (missing_handle self) (missing_values self)
               (missing_replaced_by self)
               (match first with Atom c => Some c | Seq _ => None end)
               (encoded_type self) (fst se_enc) (Some cls)
               (Some (snd se_enc)) (Some (fst r)))
      else
        d' <- est_fit d cls ;;
        OK (mk (for_target self) (missing_handle self) (missing_values self)
               (missing_replaced_by self) (missing_encoded_value self)
               (encoded_type self) (fst se_enc) (Some cls)
               (Some (snd se_enc)) (Some d'))
  end.

(** [self.transform(vec)].  After the string pre-encoder [vec] is the
    array of its codes; otherwise [np.array(vec)] is the array numpy makes
    of the list. *)
Definition transform (self : t) (vec : pyobj) : result pyobj :=
  match delegate self with
  | None => OK vec
  | Some d =>
      let wrapped :=
        match vec with
        | Atom (Str s) => (Seq [Str s], index0)
        | _ => (vec, fun v : pyobj => OK v)
        end in
      let return_value := snd wrapped in
      vec <- match str_encoder self with
             | Some se => r <- est_transform se (fst wrapped) ;; OK (Seq r)
             | None => OK (fst wrapped)
             end ;;
      if _mask_missing self || _encode_missing self then
        xs <- as_seq TypeError vec ;;
        let mask := map (fun v => py_in v (missing_values self)) xs in
        if existsb (fun b : bool => b) mask then
          let nvec :=
            match str_encoder self with
            | Some se => mk_ndarray (codes_dtype (est_kind se)) xs
            | None => np_array xs
            end in
          missing <- (if _mask_missing self then get_mask (items nvec) mask
                      else OK []) ;;
          nvec <- set_mask nvec mask (missing_replaced_by self) ;;
          res <- est_transform d (Seq (items nvec)) ;;
          let res := mk_ndarray (codes_dtype (est_kind d)) res in
          res <- (if _mask_missing self
                     && negb (pytype_eqb (encoded_type self) py_int)
                  then
                    let res :=
                      if py_in NoneV missing
                      then astype res (encoded_type self) else res in
                    set_mask res mask
                      (if pytype_eqb (encoded_type self) py_float
                       then NaN else NoneV)
                  else OK res) ;;
          return_value (Seq (items res))
        else
          res <- est_transform d vec ;; return_value (Seq res)
      else
        res <- est_transform d vec ;; return_value (Seq res)
  end.

(** [self.inverse_transform(vec)]. *)
Definition inverse_transform (self : t) (vec : pyobj) : result pyobj :=
  match delegate self with
  | None => OK vec
  | Some d => res <- est_inverse_transform d vec ;; OK (Seq res)
  end.

End Encoder.

Import Encoder.

(** ** Notions used to state the properties *)

(** The test made on each entry by the mask of [transform]. *)
Definition is_missing (self : t) (v : cell) : bool :=
  py_in v (missing_values self).

(** The sequence handed to the delegate once the missing entries have been
    replaced. *)
Definition substituted (self : t) (xs : list cell) : list cell :=
  map (fun v => if is_missing self v then missing_replaced_by self else v) xs.

(** Decoding what [transform] returned gives the argument back. *)
Definition round_trip (self : t) (vec : pyobj) : Prop :=
  exists enc, transform self vec = OK enc /\ inverse_transform self enc = OK vec.

(** A single value is handled as the sequence of length one that holds it,
    the result being taken out of the sequence again. *)
Definition scalar_as_singleton (self : t) (c : cell) : Prop :=
  transform self (Atom c) = (r <- transform self (Seq [c]) ;; index0 r).

(** The missing marker is put back exactly at the missing entries of [xs],
    the other entries of [ys] being the codes [d] gives to the values. *)
Definition marker_restored (self : t) (d : estimator) (xs ys : list cell)
  : Prop :=
  Forall2 (fun x y =>
             if is_missing self x then y = NaN
             else y <> NaN /\ est_transform d (Seq [x]) = OK [y]) xs ys.

(** [transform] succeeds on [xs] and restores the marker. *)
Definition mask_restores_marker (self : t) (xs : list cell) : Prop :=
  exists d ys,
    delegate self = Some d
    /\ transform self (Seq xs) = OK (Seq ys)
    /\ marker_restored self d xs ys.

(** Strictly increasing for [<]: sorted, and without two equal values. *)
Fixpoint strictly_sorted (cs : list cell) : bool :=
  match cs with
  | [] => true
  | c :: cs' =>
      match cs' with
      | [] => true
      | c' :: _ =>
          match py_lt c c' with
          | Some true => strictly_sorted cs'
          | _ => false
          end
      end
  end.

(** ** The adapter [run] of [frameworks/H2OAutoML/exec.py]

    [run] drives an engine that is outside the repository.  Every call that
    leaves the function is recorded as an [event], in the order of the
    source; what the call answers (a value, or an exception) is read from a
    [world], one answer per call site, so that a statement proved for every
    [world] holds whatever the engine does.  Frames and models are handles
    of the engine and are not looked into. *)

Module H2OAutoML.

Inductive error : Type :=
| NoResultError
| External (what : string).

Inductive level : Type := Info | Debug | Warning.

Definition frame : Type := nat.

Inductive event : Type :=
| Log (l : level)
| H2OInit (nthreads : nat) (max_mem_size : string)
| ImportFile (path : string)
| NewH2OAutoML (max_runtime_secs : nat) (sort_metric : option string)
    (seed : nat) (framework_params : list (string * string))
| Train (y : nat) (training_frame : frame)
| Leader
| LeaderboardFrame
| Predict (test : frame)
| TruthFrame (test : frame) (index : nat)
| SavePredictions (output_file : string) (preds truth : frame)
| LeaderboardLen
| Connection
| RemoveAll
| Close.

(** [dataset]: the paths of the two partitions and the target's index. *)
Record Dataset : Type := {
  train_path : string;
  test_path : string;
  target_index : nat
}.

(** [config], the fields [run] reads. *)
Record TaskConfig : Type := {
  metric : string;
  cores : nat;
  max_mem_size_mb : nat;
  name : string;
  fold : nat;
  max_runtime_seconds : nat;
  seed : nat;
  framework_params : list (string * string);
  output_predictions_file : string
}.

(** The dictionary [run] returns. *)
Record summary : Type := {
  models_count : nat;
  training_duration : nat
}.

(** The answers of the outside, one per call site of [run]. *)
Record world : Type := {
  w_init : error + unit;              (* h2o.init(...) *)
  w_import_train : error + frame;     (* h2o.import_file(dataset.train.path) *)
  w_import_test : error + frame;      (* h2o.import_file(dataset.test.path) *)
  w_automl : error + unit;            (* H2OAutoML(...) *)
  w_train : error + nat;              (* aml.train(...), timed *)
  w_leader : error + bool;            (* truth value of aml.leader *)
  w_leaderboard_frame : error + unit; (* aml.leaderboard.as_data_frame() *)
  w_predict : error + frame;          (* aml.predict(test).as_data_frame() *)
  w_truth : error + frame;            (* test[:, index].as_data_frame(...) *)
  w_save : error + unit;              (* save_predictions_to_file(...) *)
  w_leaderboard_len : error + nat;    (* len(aml.leaderboard) *)
  w_connection : error + bool;        (* truth value of h2o.connection() *)
  w_remove_all : error + unit;        (* h2o.remove_all() *)
  w_close : error + unit              (* h2o.connection().close() *)
}.

(** A computation that records events and may raise. *)
Definition M (A : Type) : Type := list event -> list event * (error + A).

Definition ret {A : Type} (a : A) : M A := fun tr => (tr, inr a).

Definition raise {A : Type} (e : error) : M A := fun tr => (tr, inl e).

Definition mbind {A B : Type} (c : M A) (k : A -> M B) : M B :=
  fun tr =>
    match c tr with
    | (tr', inr a) => k a tr'
    | (tr', inl e) => (tr', inl e)
    end.

Notation "x <~ c ;; k" := (mbind c (fun x => k))
  (at level 61, c at next level, right associativity).
Notation "c ;;; k" := (mbind c (fun _ => k))
  (at level 61, right associativity).

(** A call that leaves the function: the event is recorded, then the answer
    is returned or raised. *)
Definition call {A : Type} (ev : event) (answer : error + A) : M A :=
  fun tr => (tr ++ [ev], answer).

Definition log (l : level) : M unit := call (Log l) (inr tt).

(** [try: body finally: final]: [final] runs whatever [body] did; its
    exception, if any, is the one that leaves the statement, otherwise the
    value or the exception of [body] does. *)
Definition try_finally {A : Type} (body : M A) (final : M unit) : M A :=
  fun tr =>
    match body tr with
    | (tr1, r) =>
        match final tr1 with
        | (tr2, inl e) => (tr2, inl e)
        | (tr2, inr _) => (tr2, r)
        end
    end.

Definition metrics_mapping : list (string * string) :=
  [("acc", "mean_per_class_error"); ("auc", "AUC"); ("logloss", "logloss");
   ("mae", "mae"); ("mse", "mse"); ("rmse", "rmse"); ("rmsle", "rmsle")].

(** [d[k] if k in d else None]. *)
Fixpoint dict_get (k : string) (d : list (string * string)) : option string :=
  match d with
  | [] => None
  | (k', v) :: d' => if String.eqb k k' then Some v else dict_get k d'
  end.

(** [str(n)] for a natural number. *)
Definition str_of_nat (n : nat) : string :=
  NilZero.string_of_uint (Nat.to_uint n).

(** The body of the [try] statement.
    Modelled from the spec: [Timer] (of [automl.utils], not among the
    sources) times the block it encloses and lets its exception through; the
    duration it measured is the answer of the [Train] call. *)
Definition run_body (dataset : Dataset) (config : TaskConfig)
    (sort_metric : option string) (w : world) : M summary :=
  log Info ;;;
  call (H2OInit (cores config) (str_of_nat (max_mem_size_mb config) ++ "M")%string)
       (w_init w) ;;;
  log Debug ;;;
  train <~ call (ImportFile (train_path dataset)) (w_import_train w) ;;
  log Debug ;;;
  test <~ call (ImportFile (test_path dataset)) (w_import_test w) ;;
  log Info ;;;
  log Debug ;;;
  call (NewH2OAutoML (max_runtime_seconds config) sort_metric (seed config)
          (framework_params config)) (w_automl w) ;;;
  training <~ call (Train (target_index dataset) train) (w_train w) ;;
  leader <~ call Leader (w_leader w) ;;
  if negb leader then raise NoResultError
  else
    call LeaderboardFrame (w_leaderboard_frame w) ;;;
    log Debug ;;;
    preds <~ call (Predict test) (w_predict w) ;;
    y_truth <~ call (TruthFrame test (target_index dataset)) (w_truth w) ;;
    call (SavePredictions (output_predictions_file config) preds y_truth)
         (w_save w) ;;;
    n <~ call LeaderboardLen (w_leaderboard_len w) ;;
    ret {| models_count := n; training_duration := training |}.

(** The [finally] block. *)
Definition run_finally (w : world) : M unit :=
  c <~ call Connection (w_connection w) ;;
  if c then
    call RemoveAll (w_remove_all w) ;;;
    call Close (w_close w)
  else ret tt.

(** [run(dataset, config)], started on the trace [tr]. *)
Definition run (dataset : Dataset) (config : TaskConfig) (w : world)
  : M summary :=
  log Info ;;;
  let sort_metric := dict_get (metric config) metrics_mapping in
  (match sort_metric with
   | None => log Warning
   | Some _ => ret tt
   end) ;;;
  try_finally (run_body dataset config sort_metric w) (run_finally w).

(** The events of one kind in a trace. *)
Definition is_teardown (ev : event) : bool :=
  match ev with
  | Connection | RemoveAll | Close => true
  | _ => false
  end.

Definition is_save (ev : event) : bool :=
  match ev with
  | SavePredictions _ _ _ => true
  | _ => false
  end.

Definition is_predict (ev : event) : bool :=
  match ev with
  | Predict _ => true
  | _ => false
  end.

Definition is_warning (ev : event) : bool :=
  match ev with
  | Log Warning => true
  | _ => false
  end.

(** The events of the [finally] block in the world [w]. *)
Definition teardown_events (w : world) : list event :=
  match w_connection w with
  | inr true =>
      match w_remove_all w with
      | inr _ => [Connection; RemoveAll; Close]
      | inl _ => [Connection; RemoveAll]
      end
  | _ => [Connection]
  end.

(** The exception raised by the [finally] block in the world [w], if any. *)
Definition teardown_error (w : world) : option error :=
  match w_connection w with
  | inl e => Some e
  | inr false => None
  | inr true =>
      match w_remove_all w with
      | inl e => Some e
      | inr _ =>
          match w_close w with
          | inl e => Some e
          | inr _ => None
          end
      end
  end.

(** Every call of the [try] body is answered with a value in [w]. *)
Definition engine_answers (w : world) : Prop :=
  (exists u, w_init w = inr u) /\ (exists f, w_import_train w = inr f)
  /\ (exists f, w_import_test w = inr f) /\ (exists u, w_automl w = inr u)
  /\ (exists d, w_train w = inr d) /\ (exists b, w_leader w = inr b)
  /\ (exists u, w_leaderboard_frame w = inr u)
  /\ (exists f, w_predict w = inr f) /\ (exists f, w_truth w = inr f)
  /\ (exists u, w_save w = inr u) /\ (exists n, w_leaderboard_len w = inr n).

End H2OAutoML.

(** ** Cells, lists and numpy *)
Lemma list_Z_eqb_eq (a b : list Z) : list_Z_eqb a b = true <-> a = b.
Proof.
  revert b; induction a as [|x a IH]; intros [|y b]; simpl;
    try (split; [discriminate | congruence]); try tauto.
  rewrite andb_true_iff, Z.eqb_eq, IH.
  split; [intros [-> ->]; reflexivity | intros H; inversion H; auto].
Qed.

Lemma cell_eqb_eq (a b : cell) : cell_eqb a b = true <-> a = b.
Proof.
  destruct a, b; simpl; try (split; [discriminate | congruence]); try tauto.
  - rewrite String.eqb_eq; split; congruence.
  - rewrite Z.eqb_eq; split; congruence.
  - rewrite list_Z_eqb_eq; split; congruence.
Qed.

Lemma cell_eqb_refl (a : cell) : cell_eqb a a = true.
Proof. apply cell_eqb_eq; reflexivity. Qed.

Lemma string_ltb_total (s u : string) :
  String.ltb s u = false -> String.ltb u s = false -> s = u.
Proof.
  unfold String.ltb; intros H1 H2.
  apply String.compare_eq_iff.
  rewrite (String.compare_antisym u s) in H2.
  destruct (String.compare s u); simpl in *; congruence.
Qed.

Lemma py_lt_total (a b : cell) :
  py_lt a b = Some false -> py_lt b a = Some false -> a = b.
Proof.
  destruct a, b; simpl; try discriminate; intros H1 H2;
    inversion H1; inversion H2.
  - f_equal; apply string_ltb_total; assumption.
  - f_equal; lia.
Qed.

Lemma insert_unique_In (v : cell) (cs cs' : list cell) :
  insert_unique v cs = OK cs' ->
  forall x, In x cs' <-> x = v \/ In x cs.
Proof.
  revert cs'; induction cs as [|c cs IH]; simpl; intros cs' H x.
  - inversion H; subst; simpl; intuition congruence.
  - destruct (py_lt v c) as [[|]|] eqn:E1; try discriminate.
    + inversion H; subst; simpl; intuition congruence.
    + destruct (py_lt c v) as [[|]|] eqn:E2; try discriminate.
      * destruct (insert_unique v cs) as [cs''|] eqn:E3; simpl in H;
          try discriminate.
        inversion H; subst; simpl. rewrite (IH _ eq_refl). tauto.
      * inversion H; subst. pose proof (py_lt_total _ _ E1 E2); subst.
        simpl; intuition congruence.
Qed.

Lemma np_unique_In (xs cs : list cell) :
  np_unique xs = OK cs -> forall x, In x cs <-> In x xs.
Proof.
  revert cs; induction xs as [|y xs IH]; simpl; intros cs H x.
  - inversion H; subst; tauto.
  - destruct (np_unique xs) as [cs0|] eqn:E; simpl in H; try discriminate.
    rewrite (insert_unique_In _ _ _ H), (IH _ eq_refl). intuition congruence.
Qed.

Lemma index_of_nth (v : cell) (cs : list cell) (i : nat) :
  index_of v cs = Some i -> nth_error cs i = Some v.
Proof.
  revert i; induction cs as [|c cs IH]; simpl; intros i H; try discriminate.
  destruct (cell_eqb c v) eqn:E.
  - inversion H; subst; simpl. apply cell_eqb_eq in E; congruence.
  - destruct (index_of v cs); try discriminate.
    inversion H; subst; simpl; auto.
Qed.

Lemma index_of_In (v : cell) (cs : list cell) :
  In v cs -> exists i, index_of v cs = Some i.
Proof.
  induction cs as [|c cs IH]; simpl; intros H; [tauto|].
  destruct (cell_eqb c v) eqn:E; [eauto|].
  destruct H as [->|H]; [rewrite cell_eqb_refl in E; discriminate|].
  destruct (IH H) as [i ->]; eauto.
Qed.

Lemma index_of_lt (v : cell) (cs : list cell) (i : nat) :
  index_of v cs = Some i -> (i < List.length cs)%nat.
Proof.
  intros H; apply index_of_nth in H.
  apply nth_error_Some; congruence.
Qed.

Lemma write_mask_map (f : cell -> bool) (v : cell) (xs : list cell) :
  write_mask xs (map f xs) v = OK (map (fun x => if f x then v else x) xs).
Proof.
  induction xs as [|x xs IH]; simpl; [reflexivity|].
  rewrite IH; reflexivity.
Qed.

Lemma get_mask_map (f : cell -> bool) (xs : list cell) :
  get_mask xs (map f xs) = OK (filter f xs).
Proof.
  induction xs as [|x xs IH]; simpl; [reflexivity|].
  rewrite IH; simpl; destruct (f x); reflexivity.
Qed.


Lemma mapM_length {A B : Type} (f : A -> result B) (xs : list A) (ys : list B) :
  mapM f xs = OK ys -> List.length ys = List.length xs.
Proof.
  revert ys; induction xs as [|x xs IH]; simpl; intros ys H.
  - inversion H; reflexivity.
  - destruct (f x); simpl in H; try discriminate.
    destruct (mapM f xs); simpl in H; try discriminate.
    inversion H; subst; simpl; f_equal; auto.
Qed.

Lemma mapM_Forall2 {A B : Type} (f : A -> result B) (xs : list A) (ys : list B) :
  mapM f xs = OK ys <-> Forall2 (fun x y => f x = OK y) xs ys.
Proof.
  revert ys; induction xs as [|x xs IH]; simpl; intros ys.
  - split; intros H; inversion H; subst; [constructor | reflexivity].
  - split.
    + intros H. destruct (f x) eqn:E; simpl in H; try discriminate.
      destruct (mapM f xs) eqn:E'; simpl in H; try discriminate.
      inversion H; subst. constructor; [assumption | apply IH; reflexivity].
    + intros H; inversion H; subst.
      match goal with H' : f x = OK _ |- _ => rewrite H' end. simpl.
      match goal with H' : Forall2 _ xs _ |- _ => apply IH in H'; rewrite H' end.
      reflexivity.
Qed.

Lemma mapM_total {A B : Type} (f : A -> result B) (xs : list A) :
  Forall (fun x => exists y, f x = OK y) xs -> exists ys, mapM f xs = OK ys.
Proof.
  induction 1 as [|x xs [y Hy] _ [ys IH]]; simpl; [eauto|].
  rewrite Hy, IH; simpl; eauto.
Qed.

(** ** The delegate encoders *)
Lemma indicator_length (n i : nat) : List.length (indicator n i) = n.
Proof.
  revert i; induction n as [|n IH]; intros [|i]; simpl; auto.
  rewrite repeat_length; reflexivity.
Qed.

Lemma hot_column_indicator (n i : nat) :
  (i < n)%nat -> hot_column (indicator n i) = Some i.
Proof.
  revert i; induction n as [|n IH]; intros [|i] H; simpl; try lia; auto.
  rewrite IH by lia; reflexivity.
Qed.

Lemma hot_column_zero (n : nat) : hot_column (repeat 0 n) = None.
Proof. induction n as [|n IH]; simpl; [|rewrite IH]; reflexivity. Qed.

(** A class of a fitted delegate is encoded, and its code decodes to it. *)
Lemma decode_encode_one (k : dkind) (cs : list cell) (v : cell) :
  In v cs ->
  exists c, encode_one k cs v = OK c /\ decode_one k cs c = OK v.
Proof.
  intros Hin. destruct (index_of_In _ _ Hin) as [i Hi].
  pose proof (index_of_nth _ _ _ Hi) as Hn.
  pose proof (index_of_lt _ _ _ Hi) as Hlt.
  unfold encode_one; rewrite Hi.
  assert (Hnum : decode_one LabelEncoder cs (Num (Z.of_nat i)) = OK v
                 /\ decode_one OrdinalEncoder cs (Num (Z.of_nat i)) = OK v).
  { simpl. destruct (Z.ltb_spec (Z.of_nat i) 0); [lia|].
    rewrite Nat2Z.id, Hn; auto. }
  assert (Hrow : decode_one LabelBinarizer cs
                   (Row (indicator (List.length cs) i)) = OK v
                 /\ decode_one OneHotEncoder_ignore cs
                      (Row (indicator (List.length cs) i)) = OK v).
  { simpl. rewrite indicator_length, Nat.eqb_refl.
    rewrite hot_column_indicator by assumption. rewrite Hn; auto. }
  destruct k; eexists; (split; [reflexivity | tauto]).
Qed.

Lemma roundtrip_list (k : dkind) (cs xs : list cell) :
  Forall (fun v => In v cs) xs ->
  exists ys, mapM (encode_one k cs) xs = OK ys
             /\ mapM (decode_one k cs) ys = OK xs.
Proof.
  induction 1 as [|x xs Hx _ [ys [IH1 IH2]]]; simpl.
  - exists []; auto.
  - destruct (decode_encode_one k cs x Hx) as [c [Hc1 Hc2]].
    exists (c :: ys); simpl. rewrite Hc1, IH1; simpl.
    rewrite Hc2, IH2; auto.
Qed.

(** The codes of the label and ordinal encoders are numbers. *)
Lemma encode_one_ordinal (cs : list cell) (v : cell) :
  In v cs ->
  exists i, encode_one OrdinalEncoder cs v = OK (Num i).
Proof.
  intros Hin. destruct (index_of_In _ _ Hin) as [i Hi].
  unfold encode_one; rewrite Hi; eauto.
Qed.

(** ** Construction and [fit] *)
Lemma init_inv (type : string) (target : bool) (et : pytype) (mh : string)
    (mv : option (list cell)) (rb : cell) (e0 : t) :
  __init__ type target et mh mv rb = OK e0 ->
  In mh ["ignore"; "mask"; "encode"]
  /\ for_target e0 = target /\ missing_handle e0 = mh
  /\ missing_replaced_by e0 = rb
  /\ encoded_type e0 = (if target then py_int else et)
  /\ classes e0 = None
  /\ ((type = "label" /\ str_encoder e0 = None
       /\ delegate e0 = Some (new_estimator
                                (if target then LabelEncoder
                                 else OrdinalEncoder)))
      \/ (type = "one-hot"
          /\ str_encoder e0 = (if target then None
                               else Some (new_estimator OrdinalEncoder))
          /\ delegate e0 = Some (new_estimator
                                   (if target then LabelBinarizer
                                    else OneHotEncoder_ignore)))
      \/ (type = "no-op" /\ str_encoder e0 = None /\ delegate e0 = None)).
Proof.
  unfold __init__. intros H.
  destruct (existsb (String.eqb mh) ["ignore"; "mask"; "encode"]) eqn:Emh;
    simpl in H; try discriminate.
  assert (Hmh : In mh ["ignore"; "mask"; "encode"]).
  { apply existsb_exists in Emh. destruct Emh as [x [Hx Hex]].
    apply String.eqb_eq in Hex; subst; assumption. }
  destruct (String.eqb type "label") eqn:E1.
  { apply String.eqb_eq in E1. inversion H; subst; simpl. intuition. }
  destruct (String.eqb type "one-hot") eqn:E2.
  { apply String.eqb_eq in E2. inversion H; subst; simpl. intuition. }
  destruct (String.eqb type "no-op") eqn:E3; try discriminate.
  apply String.eqb_eq in E3. inversion H; subst; simpl. intuition.
Qed.

Lemma est_fit_inv (d d' : estimator) (xs : list cell) :
  est_fit d xs = OK d' ->
  exists cs, np_unique xs = OK cs /\ d' = mk_estimator (est_kind d) (Some cs).
Proof.
  unfold est_fit. destruct (np_unique xs) as [cs|]; simpl; try discriminate.
  intros H; inversion H; eauto.
Qed.

Lemma est_fit_transform_inv (d d' : estimator) (xs r : list cell) :
  est_fit_transform d xs = OK (d', r) ->
  est_fit d xs = OK d' /\ est_transform d' (Seq xs) = OK r.
Proof.
  unfold est_fit_transform.
  destruct (est_fit d xs) as [d1|]; simpl; try discriminate.
  destruct (est_transform d1 (Seq xs)) eqn:E; simpl; try discriminate.
  intros H; inversion H; subst; auto.
Qed.

(** What [fit] leaves in an instance that has a delegate. *)
Lemma fit_inv (e0 e : t) (d0 : estimator) (col : list cell) :
  delegate e0 = Some d0 ->
  fit e0 col = OK e ->
  exists cls dcs,
    classes e = Some cls
    /\ (col' <- (if _ignore_missing e0 then OK col
                  else np_insert0 col (missing_replaced_by e0)) ;;
        np_unique col') = OK cls
    /\ est_fit d0 cls = OK (mk_estimator (est_kind d0) (Some dcs))
    /\ delegate e = Some (mk_estimator (est_kind d0) (Some dcs))
    /\ for_target e = for_target e0
    /\ missing_handle e = missing_handle e0
    /\ missing_values e = missing_values e0
    /\ missing_replaced_by e = missing_replaced_by e0
    /\ encoded_type e = encoded_type e0
    /\ match str_encoder e0 with
       | None => str_encoder e = None /\ _enc_classes_ e = Some cls
       | Some se =>
           exists se' enc,
             est_fit_transform se cls = OK (se', enc)
             /\ str_encoder e = Some se' /\ _enc_classes_ e = Some enc
       end.
Proof.
  unfold fit. intros Hd H. rewrite Hd in H.
  match type of H with
  | bind ?c _ = _ =>
      assert (Hc : c = (col' <- (if _ignore_missing e0 then OK col
                                 else np_insert0 col (missing_replaced_by e0)) ;;
                        np_unique col'))
        by (destruct (_ignore_missing e0); reflexivity);
      rewrite Hc in H; clear Hc
  end.
  destruct (bind (if _ignore_missing e0 then _ else _) _) as [cls|] eqn:Ecls;
    simpl in H; try discriminate.
  assert (Hse : exists p,
             match str_encoder e0 with
             | Some se => r <- est_fit_transform se cls ;;
                          OK (Some (fst r), snd r)
             | None => OK (None, cls)
             end = OK p
             /\ match str_encoder e0 with
                | None => fst p = None /\ snd p = cls
                | Some se => exists se' enc,
                    est_fit_transform se cls = OK (se', enc)
                    /\ fst p = Some se' /\ snd p = enc
                end).
  { destruct (str_encoder e0) as [se|].
    - destruct (est_fit_transform se cls) as [[se' enc]|] eqn:E; simpl in *;
        try discriminate.
      eexists; split; [reflexivity|]. simpl; eauto.
    - eexists; split; [reflexivity|]; simpl; auto. }
  destruct Hse as [p [Hp1 Hp2]]. rewrite Hp1 in H; simpl in H.
  destruct (_mask_missing e0).
  - destruct (est_fit_transform d0 cls) as [[d' r]|] eqn:E; simpl in H;
      try discriminate.
    destruct r as [|c r]; simpl in H; try discriminate.
    apply est_fit_transform_inv in E. destruct E as [E _].
    destruct (est_fit_inv _ _ _ E) as [dcs [_ ->]].
    inversion H; subst; simpl. exists cls, dcs.
    repeat (split; [first [reflexivity | assumption]|]).
    destruct (str_encoder e0);
      [destruct Hp2 as [se' [enc [? [? ?]]]]; exists se', enc | ];
      intuition congruence.
  - destruct (est_fit d0 cls) as [d'|] eqn:E; simpl in H; try discriminate.
    destruct (est_fit_inv _ _ _ E) as [dcs [_ ->]].
    inversion H; subst; simpl. exists cls, dcs.
    repeat (split; [first [reflexivity | assumption]|]).
    destruct (str_encoder e0);
      [destruct Hp2 as [se' [enc [? [? ?]]]]; exists se', enc | ];
      intuition congruence.
Qed.

(** The column that [np.unique] is given by [fit]. *)
Lemma fit_column (ig : bool) (col cls : list cell) (rb : cell) :
  (col' <- (if ig then OK col else np_insert0 col rb) ;; np_unique col')
  = OK cls ->
  exists col',
    np_unique col' = OK cls
    /\ (if ig then col' = col
        else exists c, np_cast (np_dtype col) rb = OK c /\ col' = c :: col).
Proof.
  destruct ig; simpl.
  - intros H; exists col; auto.
  - unfold np_insert0.
    destruct (np_cast (np_dtype col) rb) as [c|]; simpl; try discriminate.
    intros H; exists (c :: col); eauto.
Qed.

(** The classes of the fitted delegate contain the fitted column and, when
    missing values are not ignored, the replacement value as it was cast to
    the dtype of the column. *)
Lemma fit_classes (e0 e : t) (d0 : estimator) (col : list cell) :
  delegate e0 = Some d0 ->
  fit e0 col = OK e ->
  exists dcs,
    delegate e = Some (mk_estimator (est_kind d0) (Some dcs))
    /\ (forall v, In v col -> In v dcs)
    /\ (_ignore_missing e0 = false ->
        exists c, np_cast (np_dtype col) (missing_replaced_by e0) = OK c
                  /\ In c dcs).
Proof.
  intros Hd H. destruct (fit_inv _ _ _ _ Hd H)
    as [cls [dcs [_ [Hcls [Hfit [Hdel _]]]]]].
  exists dcs. split; [assumption|].
  destruct (est_fit_inv _ _ _ Hfit) as [cs [Hcs Heq]].
  inversion Heq; subst cs.
  pose proof (np_unique_In _ _ Hcs) as H1.
  destruct (fit_column _ _ _ _ Hcls) as [col' [Hu Hcol']].
  pose proof (np_unique_In _ _ Hu) as H2.
  split.
  - intros v Hv. apply H1, H2. destruct (_ignore_missing e0).
    + subst col'; assumption.
    + destruct Hcol' as [c [_ ->]]. simpl; auto.
  - intros Hig. rewrite Hig in Hcol'. destruct Hcol' as [c [Hc ->]].
    exists c. split; [assumption|]. apply H1, H2. simpl; auto.
Qed.

(** ** [transform] on a sequence *)
Lemma write_mask_none (res : list cell) (mask : list bool) (v : cell) :
  existsb (fun b : bool => b) mask = false ->
  List.length res = List.length mask ->
  write_mask res mask v = OK res.
Proof.
  revert mask; induction res as [|r res IH]; intros [|m mask]; simpl;
    try discriminate; auto.
  rewrite orb_false_iff; intros [-> Hm] Hl.
  rewrite IH by (auto; lia); reflexivity.
Qed.

Lemma write_mask_length (xs : list cell) (mask : list bool) (v : cell)
    (ys : list cell) :
  write_mask xs mask v = OK ys -> List.length ys = List.length xs.
Proof.
  revert mask ys; induction xs as [|x xs IH]; intros [|m mask] ys; simpl;
    intros H; try discriminate.
  - inversion H; reflexivity.
  - destruct (write_mask xs mask v) as [r|] eqn:E; simpl in H;
      try discriminate.
    inversion H; subst; simpl. f_equal. apply (IH _ _ E).
Qed.

Lemma set_mask_length (a b : ndarray) (mask : list bool) (v : cell) :
  set_mask a mask v = OK b -> List.length (items b) = List.length (items a).
Proof.
  unfold set_mask.
  destruct (np_cast (arr_dtype a) v) as [c|]; simpl; try discriminate.
  destruct (write_mask (items a) mask c) as [r|] eqn:E; simpl;
    try discriminate.
  intros H; inversion H; subst; simpl. apply (write_mask_length _ _ _ _ E).
Qed.

Lemma est_transform_length (d : estimator) (xs res : list cell) :
  est_transform d (Seq xs) = OK res -> List.length res = List.length xs.
Proof.
  unfold est_transform; simpl. destruct (est_classes d); try discriminate.
  apply mapM_length.
Qed.

(** [transform] on a sequence when there is a delegate and no string
    pre-encoder: without a missing entry the delegate encodes the sequence;
    with one, the replacement value is assigned into the array of the
    sequence, the delegate encodes the array, and under the mask policy with
    an output type that is not [int] the placeholder is assigned into the
    codes, cast to the output type only if a [None] was among the missing
    entries. *)
Lemma transform_seq (e : t) (d : estimator) (xs : list cell) :
  delegate e = Some d ->
  str_encoder e = None ->
  transform e (Seq xs) =
    if (_mask_missing e || _encode_missing e)
       && existsb (fun b : bool => b) (map (is_missing e) xs)
    then
      nvec <- set_mask (np_array xs) (map (is_missing e) xs)
                (missing_replaced_by e) ;;
      res <- est_transform d (Seq (items nvec)) ;;
      res' <- (if _mask_missing e
                  && negb (pytype_eqb (encoded_type e) py_int)
               then
                 set_mask
                   (if py_in NoneV (filter (is_missing e) xs)
                    then astype (mk_ndarray (codes_dtype (est_kind d)) res)
                           (encoded_type e)
                    else mk_ndarray (codes_dtype (est_kind d)) res)
                   (map (is_missing e) xs)
                   (if pytype_eqb (encoded_type e) py_float
                    then NaN else NoneV)
               else OK (mk_ndarray (codes_dtype (est_kind d)) res)) ;;
      OK (Seq (items res'))
    else res <- est_transform d (Seq xs) ;; OK (Seq res).
Proof.
  intros Hd Hs. unfold transform. rewrite Hd, Hs. simpl.
  change (fun v => py_in v (missing_values e)) with (is_missing e).
  destruct (_mask_missing e || _encode_missing e) eqn:Hpol; simpl.
  2:{ destruct (est_transform d (Seq xs)); reflexivity. }
  destruct (existsb (fun b : bool => b) (map (is_missing e) xs)) eqn:Hany.
  2:{ destruct (est_transform d (Seq xs)); reflexivity. }
  assert (Hmiss : (if _mask_missing e
                   then get_mask xs (map (is_missing e) xs) else OK [])
                  = OK (if _mask_missing e
                        then filter (is_missing e) xs else [])).
  { destruct (_mask_missing e); [apply get_mask_map | reflexivity]. }
  rewrite Hmiss. simpl.
  destruct (set_mask (np_array xs) _ _) as [nvec|]; simpl; [|reflexivity].
  destruct (est_transform d _) as [res|]; simpl; [|reflexivity].
  destruct (_mask_missing e); simpl; [|reflexivity].
  destruct (negb (pytype_eqb (encoded_type e) py_int)); simpl;
    [|reflexivity].
  match goal with
  | |- bind ?c _ = bind ?c _ => destruct c; reflexivity
  end.
Qed.

Lemma no_missing_mask (e : t) (xs : list cell) :
  Forall (fun v => is_missing e v = false) xs ->
  existsb (fun b : bool => b) (map (is_missing e) xs) = false.
Proof.
  induction 1 as [|x xs Hx _ IH]; simpl; [reflexivity|].
  rewrite Hx, IH; reflexivity.
Qed.

(** [transform] of a sequence without missing entries is the delegate's
    [transform], when there is no string pre-encoder. *)
Lemma transform_seq_plain (e : t) (d : estimator) (xs : list cell) :
  delegate e = Some d ->
  str_encoder e = None ->
  Forall (fun v => is_missing e v = false) xs ->
  transform e (Seq xs) = (res <- est_transform d (Seq xs) ;; OK (Seq res)).
Proof.
  intros Hd Hs Hxs. rewrite (transform_seq e d xs Hd Hs).
  rewrite (no_missing_mask _ _ Hxs), andb_false_r. reflexivity.
Qed.

Lemma substituted_app (e : t) (xs ys : list cell) :
  substituted e (xs ++ ys) = substituted e xs ++ substituted e ys.
Proof. apply map_app. Qed.

(** ** The properties of the encoder *)

(** C2. For an encoder built with strategy ['label'] and [target=True],
    [fit(["a","b","a","c"])] makes the observed classes [["a","b","c"]], then
    [transform(["c","a"])] returns [[2,0]] and [inverse_transform([2,0])]
    returns [["c","a"]]. *)
Theorem C2_label_target_scenario
    (et : pytype) (mh : string) (mv : option (list cell)) (rb : cell) (e0 : t) :
  __init__ "label" true et mh mv rb = OK e0 ->
  exists e,
    fit e0 [Str "a"; Str "b"; Str "a"; Str "c"] = OK e
    /\ classes e = Some [Str "a"; Str "b"; Str "c"]
    /\ transform e (Seq [Str "c"; Str "a"]) = OK (Seq [Num 2; Num 0])
    /\ inverse_transform e (Seq [Num 2; Num 0]) = OK (Seq [Str "c"; Str "a"]).
Proof.
  unfold __init__. destruct (negb _); [discriminate|]. simpl.
  intros H; inversion H; subst; clear H.
  eexists. split; [reflexivity|]. repeat split.
Qed.

Lemma C2_label_target_scenario_witness :
  exists e,
    fit (mk true "ignore" [NoneV] (Str "") None py_int None None None
            (Some (new_estimator LabelEncoder)))
        [Str "a"; Str "b"; Str "a"; Str "c"] = OK e
    /\ classes e = Some [Str "a"; Str "b"; Str "c"]
    /\ transform e (Seq [Str "c"; Str "a"]) = OK (Seq [Num 2; Num 0])
    /\ inverse_transform e (Seq [Num 2; Num 0]) = OK (Seq [Str "c"; Str "a"]).
Proof.
  apply (C2_label_target_scenario py_float "ignore" None (Str "")).
  reflexivity.
Defined.

(** C1 (amended). For every encoder built with strategy ['label'], or with
    strategy ['one-hot'] for a target, and fitted on a column, and for every
    sequence of values that were observed by [fit] and are not missing
    sentinels, [inverse_transform(transform(seq))] is [seq]. *)
Theorem C1_round_trip_sequence
    (type : string) (target : bool) (et : pytype) (mh : string)
    (mv : option (list cell)) (rb : cell) (col : list cell) (e0 e : t)
    (xs : list cell) :
  type = "label" \/ (type = "one-hot" /\ target = true) ->
  __init__ type target et mh mv rb = OK e0 ->
  fit e0 col = OK e ->
  Forall (fun v => In v col /\ is_missing e v = false) xs ->
  round_trip e (Seq xs).
Proof.
  intros Hty Hinit Hfit Hxs.
  destruct (init_inv _ _ _ _ _ _ _ Hinit)
    as [_ [_ [_ [_ [_ [_ Hkind]]]]]].
  assert (Hd : exists d0, delegate e0 = Some d0 /\ str_encoder e0 = None).
  { destruct Hkind as [[_ [Hs Hd]]|[[Ht [Hs Hd]]|[Ht _]]].
    - eauto.
    - destruct Hty as [Hty|[_ Htg]]; [subst; discriminate|].
      subst target; eauto.
    - destruct Hty as [Hty|[Hty _]]; subst; discriminate. }
  destruct Hd as [d0 [Hd0 Hs0]].
  destruct (fit_inv _ _ _ _ Hd0 Hfit)
    as [cls [dcs' [_ [_ [_ [Hdel [_ [_ [_ [_ [_ Hstr]]]]]]]]]]].
  rewrite Hs0 in Hstr. destruct Hstr as [Hs _].
  destruct (fit_classes _ _ _ _ Hd0 Hfit) as [dcs [Hdel2 [Hin _]]].
  assert (Hobs : Forall (fun v => In v dcs) xs).
  { eapply Forall_impl; [|exact Hxs]. simpl; intros v [Hv _]; auto. }
  assert (Hnm : Forall (fun v => is_missing e v = false) xs).
  { eapply Forall_impl; [|exact Hxs]. simpl; intros v [_ Hv]; auto. }
  destruct (roundtrip_list (est_kind d0) dcs xs Hobs) as [ys [Henc Hdec]].
  exists (Seq ys). split.
  - rewrite (transform_seq_plain _ _ _ Hdel2 Hs Hnm).
    unfold est_transform; simpl. rewrite Henc; reflexivity.
  - unfold inverse_transform. rewrite Hdel2.
    unfold est_inverse_transform; simpl. rewrite Hdec; reflexivity.
Qed.

Lemma C1_round_trip_sequence_witness :
  exists e0 e,
    __init__ "label" false py_float "mask" None (Str "") = OK e0
    /\ fit e0 [Str "b"; Str "a"; Str "b"] = OK e
    /\ round_trip e (Seq [Str "b"; Str "a"]).
Proof.
  eexists; eexists. split; [reflexivity|]. split; [reflexivity|].
  eapply (C1_round_trip_sequence "label" false py_float "mask" None (Str "")
           [Str "b"; Str "a"; Str "b"] _ _ [Str "b"; Str "a"]).
  - left; reflexivity.
  - reflexivity.
  - reflexivity.
  - repeat (apply Forall_cons || apply Forall_nil);
      (split; [simpl; tauto | reflexivity]).
Defined.

(** C1 as stated fails: a one-hot feature encoder does not give a sequence
    of observed values back, and the scalar that [transform] returns for a
    scalar is not decoded by [inverse_transform]. *)
Lemma C1_counterexample :
  (exists e0 e,
      __init__ "one-hot" false py_float "ignore" None (Str "") = OK e0
      /\ fit e0 [Str "x"; Str "y"] = OK e
      /\ ~ round_trip e (Seq [Str "x"]))
  /\ (exists e0 e,
         __init__ "one-hot" true py_float "ignore" None (Str "") = OK e0
         /\ fit e0 [Str "a"; Str "b"; Str "c"] = OK e
         /\ ~ round_trip e (Atom (Str "a")))
  /\ (exists e0 e,
         __init__ "label" true py_float "ignore" None (Str "") = OK e0
         /\ fit e0 [Str "a"; Str "b"; Str "c"] = OK e
         /\ ~ round_trip e (Atom (Str "a"))).
Proof.
  repeat split.
  all: eexists; eexists; split; [reflexivity|]; split; [reflexivity|].
  all: intros [enc [H1 H2]]; vm_compute in H1; inversion H1; subst;
    vm_compute in H2; discriminate.
Qed.

(** C8. Construction fails with a configuration error whenever the strategy
    is not one of ['label'], ['one-hot'], ['no-op'] or the missing-value
    policy is not one of ['ignore'], ['mask'], ['encode']: no instance is
    returned. *)
Theorem C8_construction_fails
    (type : string) (target : bool) (et : pytype) (mh : string)
    (mv : option (list cell)) (rb : cell) :
  ~ In type ["label"; "one-hot"; "no-op"]
  \/ ~ In mh ["ignore"; "mask"; "encode"] ->
  __init__ type target et mh mv rb = Raise AssertionError
  \/ __init__ type target et mh mv rb = Raise ValueError.
Proof.
  intros H. unfold __init__.
  destruct (existsb (String.eqb mh) ["ignore"; "mask"; "encode"]) eqn:Emh;
    simpl; [|left; reflexivity].
  destruct H as [H|H].
  - destruct (String.eqb type "label") eqn:E1.
    { apply String.eqb_eq in E1; subst; simpl in H; tauto. }
    destruct (String.eqb type "one-hot") eqn:E2.
    { apply String.eqb_eq in E2; subst; simpl in H; tauto. }
    destruct (String.eqb type "no-op") eqn:E3.
    { apply String.eqb_eq in E3; subst; simpl in H; tauto. }
    right; reflexivity.
  - exfalso; apply H. apply existsb_exists in Emh.
    destruct Emh as [x [Hx Hex]]. apply String.eqb_eq in Hex; subst; auto.
Qed.

Lemma C8_construction_fails_witness :
  (__init__ "ordinal" false py_float "ignore" None (Str "")
     = Raise AssertionError
   \/ __init__ "ordinal" false py_float "ignore" None (Str "")
      = Raise ValueError)
  /\ (__init__ "label" false py_float "drop" None (Str "")
        = Raise AssertionError
      \/ __init__ "label" false py_float "drop" None (Str "")
         = Raise ValueError).
Proof.
  split.
  - apply (C8_construction_fails "ordinal" false py_float "ignore" None
             (Str "")).
    left. simpl. intros [H|[H|[H|H]]]; try discriminate; assumption.
  - apply (C8_construction_fails "label" false py_float "drop" None (Str "")).
    right. simpl. intros [H|[H|[H|H]]]; try discriminate; assumption.
Defined.

Lemma index_of_not_In (v : cell) (cs : list cell) :
  ~ In v cs -> index_of v cs = None.
Proof.
  induction cs as [|c cs IH]; simpl; intros H; [reflexivity|].
  destruct (cell_eqb c v) eqn:E.
  - apply cell_eqb_eq in E; subst; tauto.
  - rewrite IH by tauto; reflexivity.
Qed.

(** A fitted one-hot feature encoder raises on every sequence that starts
    with a value outside its classes, whatever the policy. *)
Lemma one_hot_feature_unseen_raises
    (et : pytype) (mh : string) (mv : option (list cell)) (rb : cell)
    (col cls : list cell) (e0 e : t) (v : cell) (xs : list cell) :
  __init__ "one-hot" false et mh mv rb = OK e0 ->
  fit e0 col = OK e ->
  classes e = Some cls ->
  ~ In v cls ->
  transform e (Seq (v :: xs)) = Raise ValueError.
Proof.
  intros Hinit Hfit Hcls Hv.
  destruct (init_inv _ _ _ _ _ _ _ Hinit) as [_ [_ [_ [_ [_ [_ Hkind]]]]]].
  destruct Hkind as [[Ht _]|[[_ [Hs Hd]]|[Ht _]]]; try discriminate.
  destruct (fit_inv _ _ _ _ Hd Hfit)
    as [cls' [dcs [Hcls' [_ [_ [Hdel [_ [_ [_ [_ [_ Hstr]]]]]]]]]]].
  rewrite Hs in Hstr. destruct Hstr as [se' [enc [Hft [Hse _]]]].
  rewrite Hcls in Hcls'. inversion Hcls'; subst cls'.
  apply est_fit_transform_inv in Hft. destruct Hft as [Hft _].
  destruct (est_fit_inv _ _ _ Hft) as [cs [Hcs ->]].
  assert (Hidx : index_of v cs = None).
  { apply index_of_not_In. intros H. apply Hv.
    apply (np_unique_In _ _ Hcs). assumption. }
  unfold transform. rewrite Hdel, Hse. cbn [fst snd].
  unfold est_transform at 1. simpl. unfold encode_one at 1.
  rewrite Hidx. reflexivity.
Qed.

(** C3. A one-hot feature encoder is meant to encode a value not seen by
    [fit] as the all-zero row without raising.  On the encoder fitted on
    [["x","y"]], [transform(["z"])] raises: the string pre-encoder refuses
    the unseen value before the one-hot delegate is reached. *)
Theorem C3_unseen_value_raises :
  exists e0 e se,
    __init__ "one-hot" false py_float "ignore" None (Str "") = OK e0
    /\ fit e0 [Str "x"; Str "y"] = OK e
    /\ str_encoder e = Some se
    /\ est_transform se (Seq [Str "z"]) = Raise ValueError
    /\ transform e (Seq [Str "z"]) = Raise ValueError.
Proof.
  eexists; eexists; eexists.
  split; [reflexivity|]. split; [reflexivity|]. split; [reflexivity|].
  split; reflexivity.
Qed.

(** C4. With a string pre-encoder, [fit] applies the pre-encoder to the
    observed classes and records the result in [_enc_classes_], and is meant
    to fit the delegate on that pre-encoded form.  On the one-hot feature
    encoder fitted on [["x","y"]] the delegate is fitted on the classes
    themselves, so that the pre-encoded value of an observed class is unknown
    to it and is encoded as the zero row. *)
Theorem C4_delegate_fitted_on_raw_classes :
  exists e0 e,
    __init__ "one-hot" false py_float "ignore" None (Str "") = OK e0
    /\ fit e0 [Str "x"; Str "y"] = OK e
    /\ classes e = Some [Str "x"; Str "y"]
    /\ str_encoder e
       = Some (mk_estimator OrdinalEncoder (Some [Str "x"; Str "y"]))
    /\ _enc_classes_ e = Some [Num 0; Num 1]
    /\ delegate e
       = Some (mk_estimator OneHotEncoder_ignore (Some [Str "x"; Str "y"]))
    /\ transform e (Seq [Str "x"; Str "y"])
       = OK (Seq [Row [0; 0]; Row [0; 0]]).
Proof.
  eexists; eexists.
  split; [reflexivity|]. split; [reflexivity|]. repeat split.
Qed.

(** C6. Under the mask policy [fit] is meant to keep in
    [missing_encoded_value] the code of the replacement value.  It keeps the
    first code of the sorted classes: with the replacement ["zz"] and the
    column [["aa","bb"]] that is the code of ["aa"], the code of ["zz"]
    being 2. *)
Theorem C6_missing_encoded_value_is_first_class :
  exists e0 e d,
    __init__ "label" false py_float "mask" None (Str "zz") = OK e0
    /\ fit e0 [Str "aa"; Str "bb"] = OK e
    /\ classes e = Some [Str "aa"; Str "bb"; Str "zz"]
    /\ delegate e = Some d
    /\ missing_encoded_value e = Some (Num 0)
    /\ est_transform d (Seq [Str "aa"]) = OK [Num 0]
    /\ est_transform d (Seq [missing_replaced_by e]) = OK [Num 2].
Proof.
  eexists; eexists; eexists.
  split; [reflexivity|]. split; [reflexivity|]. repeat split.
Qed.

(** C5. Under the mask policy with [float] as output type a non-target
    encoder is meant to return NaN exactly at the entries that were
    missing.  On the ['label'] encoder with the sentinel ["NA"], fitted on
    [["a","b"]], [transform(["b","NA"])] raises: no [None] is among the
    missing entries, so the integer codes are not cast to [float], and NaN
    cannot be assigned into them.  With a [None] among the missing entries
    the codes are cast and the result is the one the claim describes. *)
Theorem C5_nan_into_integer_codes_raises :
  exists e0 e,
    __init__ "label" false py_float "mask" (Some [Str "NA"]) (Str "") = OK e0
    /\ fit e0 [Str "a"; Str "b"] = OK e
    /\ is_missing e (Str "NA") = true
    /\ transform e (Seq [Str "b"; Str "NA"]) = Raise ValueError
    /\ transform e (Seq [Str "b"; NoneV]) = OK (Seq [Num 2; NaN])
    /\ transform e (Seq [Str "b"; NoneV; Str "NA"])
       = OK (Seq [Num 2; NaN; NaN]).
Proof.
  eexists; eexists.
  split; [reflexivity|]. split; [reflexivity|]. repeat split.
Qed.

(** C7. Under the encode policy a missing sentinel is meant to be encoded
    as the replacement value is.  It is not on a ['one-hot'] feature
    encoder, where the string pre-encoder runs before the sentinels are
    looked for, so that the sentinel goes to the delegate under its own
    ordinal code; nor on a ['label'] encoder when the replacement value is
    longer than the strings of the transformed list, the array of the list
    keeping only its first characters. *)
Theorem C7_encode_sentinel_differs :
  (exists e0 e,
      __init__ "one-hot" false py_float "encode" (Some [Num (-999)])
        (Num (-1)) = OK e0
      /\ fit e0 [Num (-999); Num 0; Num 5] = OK e
      /\ is_missing e (Num (-999)) = true
      /\ transform e (Seq [Num (-999)]) = OK (Seq [Row [0; 0; 1; 0]])
      /\ transform e (Seq [missing_replaced_by e])
         = OK (Seq [Row [0; 0; 0; 0]]))
  /\ (exists e0 e,
         __init__ "label" false py_float "encode" (Some [Str "NA"])
           (Str "missing") = OK e0
         /\ fit e0 [Str "NA"; Str "b"; Str "longvalue"] = OK e
         /\ classes e
            = Some [Str "NA"; Str "b"; Str "longvalue"; Str "missing"]
         /\ is_missing e (Str "NA") = true
         /\ transform e (Seq [Str "NA"]) = Raise ValueError
         /\ transform e (Seq [missing_replaced_by e]) = OK (Seq [Num 3])).
Proof.
  split; eexists; eexists;
    (split; [reflexivity|]); (split; [reflexivity|]); repeat split.
Qed.

(** C10. Under the mask policy with [int] as output type a missing entry is
    meant to come out as the delegate's encoding of the replacement value.
    It does not on a ['one-hot'] feature encoder: the string pre-encoder
    runs before the sentinels are looked for, the sentinel ["NA"] is not
    replaced and comes out as the zero row, where the replacement value is
    encoded as the row [[1,0,0]].  On a ['label'] encoder a replacement
    value longer than the strings of the transformed list is cut by the
    array of the list, and [transform] raises. *)
Theorem C10_mask_int_sentinel_not_replaced :
  (exists e0 e d,
      __init__ "one-hot" false py_int "mask" (Some [Str "NA"]) (Str "")
        = OK e0
      /\ fit e0 [Str "NA"; Str "a"] = OK e
      /\ is_missing e (Str "NA") = true
      /\ delegate e = Some d
      /\ est_transform d (Seq [missing_replaced_by e]) = OK [Row [1; 0; 0]]
      /\ transform e (Seq [Str "NA"]) = OK (Seq [Row [0; 0; 0]]))
  /\ (exists e0 e,
         __init__ "label" false py_int "mask" (Some [Str "NA"])
           (Str "missing") = OK e0
         /\ fit e0 [Str "NA"; Str "b"; Str "longvalue"] = OK e
         /\ is_missing e (Str "NA") = true
         /\ transform e (Seq [Str "NA"]) = Raise ValueError
         /\ transform e (Seq [missing_replaced_by e]) = OK (Seq [Num 3])).
Proof.
  split.
  - eexists; eexists; eexists.
    split; [reflexivity|]. split; [reflexivity|]. repeat split.
  - eexists; eexists.
    split; [reflexivity|]. split; [reflexivity|]. repeat split.
Qed.

(** C9 (amended). For every encoder and every single string, [transform]
    handles the string as the sequence of length one that holds it and takes
    the result out of the sequence again, so that what it returns for a
    string is a single encoded value and not a sequence. *)
Theorem C9_string_scalar_unwrapped (e : t) (s : string) :
  scalar_as_singleton e (Str s)
  /\ (forall r, transform e (Atom (Str s)) = OK r -> exists c, r = Atom c).
Proof.
  assert (Hidx : forall (res : list cell) (r : pyobj),
             index0 (Seq res) = OK r -> exists c, r = Atom c).
  { intros [|c res] r H; simpl in H; inversion H; eauto. }
  unfold scalar_as_singleton, transform.
  destruct (delegate e) as [d|]; [|simpl; split; [reflexivity|]].
  2:{ intros r H; inversion H; eauto. }
  cbn [fst snd].
  destruct (match str_encoder e with
            | Some se => r <- est_transform se (Seq [Str s]) ;; OK (Seq r)
            | None => OK (Seq [Str s])
            end) as [v|]; cbn [bind]; [|split; [reflexivity | discriminate]].
  destruct (_mask_missing e || _encode_missing e).
  - destruct (as_seq TypeError v) as [xs|]; cbn [bind];
      [|split; [reflexivity | discriminate]].
    destruct (existsb _ _).
    + destruct (if _mask_missing e then get_mask _ _ else OK []);
        cbn [bind]; [|split; [reflexivity | discriminate]].
      destruct (set_mask _ _ _); cbn [bind];
        [|split; [reflexivity | discriminate]].
      destruct (est_transform d _); cbn [bind];
        [|split; [reflexivity | discriminate]].
      match goal with
      | |- context [bind ?c _] =>
          destruct c; cbn [bind]; [|split; [reflexivity | discriminate]]
      end.
      split; [reflexivity | apply Hidx].
    + destruct (est_transform d v); cbn [bind];
        [|split; [reflexivity | discriminate]].
      split; [reflexivity | apply Hidx].
  - destruct (est_transform d v); cbn [bind];
      [|split; [reflexivity | discriminate]].
    split; [reflexivity | apply Hidx].
Qed.

Lemma C9_string_scalar_unwrapped_witness :
  exists e0 e,
    __init__ "one-hot" true py_float "ignore" None (Str "") = OK e0
    /\ fit e0 [Str "dog"; Str "cat"; Str "emu"] = OK e
    /\ transform e (Atom (Str "cat")) = OK (Atom (Row [1; 0; 0]))
    /\ scalar_as_singleton e (Str "cat")
    /\ exists c, Atom (Row [1; 0; 0]) = Atom c.
Proof.
  eexists; eexists. split; [reflexivity|]. split; [reflexivity|].
  match goal with
  | |- transform ?e _ = _ /\ _ =>
      destruct (C9_string_scalar_unwrapped e "cat") as [H1 H2]
  end.
  split; [reflexivity|]. split; [exact H1|].
  apply (H2 (Atom (Row [1; 0; 0]))). reflexivity.
Defined.

(** C9 as stated fails for a single value that is not a string: it is
    handed over as it is, where the sequence that holds it is encoded. *)
Lemma C9_counterexample :
  (exists e0 e,
      __init__ "label" true py_float "ignore" None (Str "") = OK e0
      /\ fit e0 [Num 1; Num 2] = OK e
      /\ transform e (Seq [Num 1]) = OK (Seq [Num 0])
      /\ transform e (Atom (Num 1)) = Raise ValueError
      /\ ~ scalar_as_singleton e (Num 1))
  /\ (exists e0 e,
         __init__ "label" false py_float "mask" None (Num 0) = OK e0
         /\ fit e0 [Num 1; Num 2] = OK e
         /\ transform e (Seq [Num 1]) = OK (Seq [Num 1])
         /\ transform e (Atom (Num 1)) = Raise TypeError
         /\ ~ scalar_as_singleton e (Num 1)).
Proof.
  split.
  - eexists; eexists. split; [reflexivity|]. split; [reflexivity|].
    split; [reflexivity|]. split; [reflexivity|].
    unfold scalar_as_singleton. vm_compute. discriminate.
  - eexists; eexists. split; [reflexivity|]. split; [reflexivity|].
    split; [reflexivity|]. split; [reflexivity|].
    unfold scalar_as_singleton. vm_compute. discriminate.
Qed.

(** ** Further properties of the encoder *)

(** X1. An encoder built with strategy ['no-op'] is left as it is by [fit],
    and its [transform] and [inverse_transform] return their argument. *)
Theorem noop_is_identity
    (target : bool) (et : pytype) (mh : string) (mv : option (list cell))
    (rb : cell) (e0 : t) :
  __init__ "no-op" target et mh mv rb = OK e0 ->
  (forall col, fit e0 col = OK e0)
  /\ (forall vec, transform e0 vec = OK vec)
  /\ (forall vec, inverse_transform e0 vec = OK vec).
Proof.
  intros Hinit.
  destruct (init_inv _ _ _ _ _ _ _ Hinit) as [_ [_ [_ [_ [_ [_ Hkind]]]]]].
  destruct Hkind as [[Ht _]|[[Ht _]|[_ [_ Hd]]]]; try discriminate.
  unfold fit, transform, inverse_transform. rewrite Hd. auto.
Qed.

Lemma noop_is_identity_witness :
  exists e0,
    __init__ "no-op" false py_float "mask" None (Str "") = OK e0
    /\ (forall col, fit e0 col = OK e0)
    /\ (forall vec, transform e0 vec = OK vec)
    /\ (forall vec, inverse_transform e0 vec = OK vec).
Proof.
  eexists. split; [reflexivity|].
  eapply (noop_is_identity false py_float "mask" None (Str "")). reflexivity.
Defined.

(** X2. On every encoder the constructor returns exactly one of
    [_ignore_missing], [_mask_missing], [_encode_missing] holds, and it is
    [_ignore_missing] for a target, whatever the policy. *)
Theorem policy_exactly_one
    (type : string) (target : bool) (et : pytype) (mh : string)
    (mv : option (list cell)) (rb : cell) (e0 : t) :
  __init__ type target et mh mv rb = OK e0 ->
  ((_ignore_missing e0 = true /\ _mask_missing e0 = false
    /\ _encode_missing e0 = false)
   \/ (_ignore_missing e0 = false /\ _mask_missing e0 = true
       /\ _encode_missing e0 = false)
   \/ (_ignore_missing e0 = false /\ _mask_missing e0 = false
       /\ _encode_missing e0 = true))
  /\ (target = true -> _ignore_missing e0 = true).
Proof.
  intros Hinit.
  destruct (init_inv _ _ _ _ _ _ _ Hinit) as [Hmh [Htg [Hh _]]].
  unfold _ignore_missing, _mask_missing, _encode_missing.
  rewrite Htg, Hh. split.
  - destruct target; simpl; [left; auto|].
    simpl in Hmh. destruct Hmh as [<-|[<-|[<-|[]]]]; simpl; auto.
  - intros ->; reflexivity.
Qed.

Lemma policy_exactly_one_witness :
  exists e0,
    __init__ "label" false py_float "encode" None (Str "") = OK e0
    /\ _ignore_missing e0 = false /\ _mask_missing e0 = false
    /\ _encode_missing e0 = true.
Proof.
  eexists. split; [reflexivity|].
  match goal with
  | |- _ignore_missing ?e = _ /\ _ =>
      destruct (policy_exactly_one "label" false py_float "encode" None
                  (Str "") e eq_refl) as [[H|[H|H]] _]
  end.
  - destruct H as [H _]; vm_compute in H; discriminate.
  - destruct H as [_ [H _]]; vm_compute in H; discriminate.
  - exact H.
Defined.

(** X3. [fit] changes no part of the configuration: the target flag, the
    policy, the sentinels, the replacement value and the output type of the
    instance are the same after the call, and the estimators keep their
    class. *)
Theorem fit_keeps_configuration (e0 e : t) (col : list cell) :
  fit e0 col = OK e ->
  for_target e = for_target e0
  /\ missing_handle e = missing_handle e0
  /\ missing_values e = missing_values e0
  /\ missing_replaced_by e = missing_replaced_by e0
  /\ encoded_type e = encoded_type e0
  /\ option_map est_kind (delegate e) = option_map est_kind (delegate e0)
  /\ option_map est_kind (str_encoder e)
     = option_map est_kind (str_encoder e0).
Proof.
  intros Hfit. destruct (delegate e0) as [d0|] eqn:Hd.
  - destruct (fit_inv _ _ _ _ Hd Hfit)
      as [cls [dcs [_ [_ [_ [Hdel [H1 [H2 [H3 [H4 [H5 Hstr]]]]]]]]]]].
    repeat (split; [assumption|]). split; [rewrite Hdel; reflexivity|].
    destruct (str_encoder e0) as [se|].
    + destruct Hstr as [se' [enc [Hft [-> _]]]].
      apply est_fit_transform_inv in Hft. destruct Hft as [Hft _].
      destruct (est_fit_inv _ _ _ Hft) as [cs [_ ->]]. reflexivity.
    + destruct Hstr as [-> _]. reflexivity.
  - unfold fit in Hfit. rewrite Hd in Hfit. inversion Hfit; subst.
    rewrite Hd. repeat split; reflexivity.
Qed.

Lemma fit_keeps_configuration_witness :
  exists e0 e,
    __init__ "one-hot" false py_float "mask" (Some [Str "NA"]) (Str "") = OK e0
    /\ fit e0 [Str "b"; Str "a"] = OK e
    /\ for_target e = for_target e0
    /\ missing_handle e = missing_handle e0
    /\ missing_values e = missing_values e0
    /\ missing_replaced_by e = missing_replaced_by e0
    /\ encoded_type e = encoded_type e0
    /\ option_map est_kind (delegate e) = option_map est_kind (delegate e0)
    /\ option_map est_kind (str_encoder e)
       = option_map est_kind (str_encoder e0).
Proof.
  eexists; eexists. split; [reflexivity|]. split; [reflexivity|].
  eapply fit_keeps_configuration with (col := [Str "b"; Str "a"]).
  reflexivity.
Defined.

Lemma insert_unique_sorted (v : cell) (cs cs' : list cell) :
  strictly_sorted cs = true ->
  insert_unique v cs = OK cs' ->
  strictly_sorted cs' = true
  /\ (match cs' with
      | [] => False
      | c' :: _ => c' = v \/ (exists rest, cs = c' :: rest)
      end).
Proof.
  revert cs'; induction cs as [|c cs IH]; simpl; intros cs' Hs H.
  - inversion H; subst; simpl; auto.
  - destruct (py_lt v c) as [[|]|] eqn:E1; try discriminate.
    + inversion H; subst. simpl. rewrite E1. split; [assumption | auto].
    + destruct (py_lt c v) as [[|]|] eqn:E2; try discriminate.
      * destruct (insert_unique v cs) as [cs''|] eqn:E3; simpl in H;
          try discriminate.
        inversion H; subst; clear H.
        assert (Hs' : strictly_sorted cs = true).
        { destruct cs as [|c2 cs2]; [reflexivity|].
          destruct (py_lt c c2) as [[|]|]; try discriminate; assumption. }
        destruct (IH _ Hs' eq_refl) as [IH1 IH2].
        split; [|right; eauto].
        simpl. destruct cs'' as [|c'' rest'']; [reflexivity|].
        destruct IH2 as [->|[rest ->]].
        -- rewrite E2; assumption.
        -- destruct (py_lt c c'') as [[|]|]; try discriminate; assumption.
      * inversion H; subst; clear H.
        split; [assumption|]. right; eauto.
Qed.

Lemma np_unique_sorted (xs cs : list cell) :
  np_unique xs = OK cs -> strictly_sorted cs = true.
Proof.
  revert cs; induction xs as [|x xs IH]; simpl; intros cs H.
  - inversion H; reflexivity.
  - destruct (np_unique xs) as [cs0|] eqn:E; simpl in H; try discriminate.
    apply (insert_unique_sorted x cs0 cs (IH _ eq_refl) H).
Qed.

Lemma np_unique_of_sorted (cs : list cell) :
  strictly_sorted cs = true -> np_unique cs = OK cs.
Proof.
  induction cs as [|c cs IH]; simpl; intros Hs; [reflexivity|].
  destruct cs as [|c' cs'].
  - reflexivity.
  - destruct (py_lt c c') as [[|]|] eqn:E; try discriminate.
    rewrite (IH Hs). simpl. rewrite E. reflexivity.
Qed.

(** [fit] leaves the configuration and the classes of the estimators as
    they are. *)
Lemma fit_frame (e0 e : t) (col : list cell) :
  fit e0 col = OK e ->
  for_target e = for_target e0
  /\ missing_handle e = missing_handle e0
  /\ missing_values e = missing_values e0
  /\ missing_replaced_by e = missing_replaced_by e0
  /\ encoded_type e = encoded_type e0
  /\ option_map est_kind (delegate e) = option_map est_kind (delegate e0)
  /\ option_map est_kind (str_encoder e)
     = option_map est_kind (str_encoder e0).
Proof.
  intros Hfit. destruct (delegate e0) as [d0|] eqn:Hd.
  - destruct (fit_inv _ _ _ _ Hd Hfit)
      as [cls [dcs [_ [_ [_ [Hdel [H1 [H2 [H3 [H4 [H5 Hstr]]]]]]]]]]].
    repeat (split; [assumption|]). split; [rewrite Hdel; reflexivity|].
    destruct (str_encoder e0) as [se|].
    + destruct Hstr as [se' [enc [Hft [-> _]]]].
      apply est_fit_transform_inv in Hft. destruct Hft as [Hft _].
      destruct (est_fit_inv _ _ _ Hft) as [cs [_ ->]]. reflexivity.
    + destruct Hstr as [-> _]. reflexivity.
  - unfold fit in Hfit. rewrite Hd in Hfit. inversion Hfit; subst.
    rewrite Hd. repeat split; reflexivity.
Qed.

(** The classes [fit] computes are sorted, so that the estimators fitted on
    them hold them as they are. *)
Lemma fit_estimators (e0 e : t) (d0 : estimator) (col : list cell) :
  delegate e0 = Some d0 ->
  fit e0 col = OK e ->
  exists cls,
    classes e = Some cls
    /\ strictly_sorted cls = true
    /\ delegate e = Some (mk_estimator (est_kind d0) (Some cls))
    /\ (forall se, str_encoder e0 = Some se ->
                   str_encoder e = Some (mk_estimator (est_kind se) (Some cls)))
    /\ (str_encoder e0 = None -> str_encoder e = None).
Proof.
  intros Hd Hfit.
  destruct (fit_inv _ _ _ _ Hd Hfit)
    as [cls [dcs [Hcls [Hu [Hf [Hdel [_ [_ [_ [_ [_ Hstr]]]]]]]]]]].
  destruct (fit_column _ _ _ _ Hu) as [col' [Hu' _]].
  pose proof (np_unique_sorted _ _ Hu') as Hsorted.
  pose proof (np_unique_of_sorted _ Hsorted) as Hid.
  exists cls. split; [assumption|]. split; [assumption|]. split; [|split].
  - destruct (est_fit_inv _ _ _ Hf) as [cs [Hcs Heq]].
    rewrite Hid in Hcs. inversion Hcs; subst cs.
    inversion Heq; subst dcs. assumption.
  - intros se Hse. rewrite Hse in Hstr.
    destruct Hstr as [se' [enc [Hft [-> _]]]].
    apply est_fit_transform_inv in Hft. destruct Hft as [Hft _].
    destruct (est_fit_inv _ _ _ Hft) as [cs [Hcs ->]].
    rewrite Hid in Hcs. inversion Hcs; subst cs. reflexivity.
  - intros Hse. rewrite Hse in Hstr. tauto.
Qed.

(** X4. After [fit] the observed classes are strictly increasing (sorted,
    without duplicates).  They are the values of the fitted column and, for
    an encoder that does not ignore missing values, the replacement value as
    numpy casts it to the dtype of the column: cut to the width of a column
    of strings, converted for a column of numbers. *)
Theorem fit_classes_sorted_exact (e0 e : t) (d0 : estimator) (col : list cell) :
  delegate e0 = Some d0 ->
  fit e0 col = OK e ->
  exists cls,
    classes e = Some cls
    /\ strictly_sorted cls = true
    /\ (if _ignore_missing e0
        then forall v, In v cls <-> In v col
        else exists c,
            np_cast (np_dtype col) (missing_replaced_by e0) = OK c
            /\ forall v, In v cls <-> v = c \/ In v col).
Proof.
  intros Hd Hfit.
  destruct (fit_inv _ _ _ _ Hd Hfit) as [cls [dcs [Hcls [Hu _]]]].
  destruct (fit_column _ _ _ _ Hu) as [col' [Hu' Hcol']].
  exists cls. split; [assumption|]. split; [apply (np_unique_sorted _ _ Hu')|].
  destruct (_ignore_missing e0).
  - subst col'. intros v. apply (np_unique_In _ _ Hu').
  - destruct Hcol' as [c [Hc ->]]. exists c. split; [assumption|].
    intros v. rewrite (np_unique_In _ _ Hu'). simpl. intuition congruence.
Qed.

Lemma fit_classes_sorted_exact_witness :
  exists e0 e,
    __init__ "label" false py_float "encode" None (Str "zz") = OK e0
    /\ fit e0 [Str "b"; Str "a"; Str "b"] = OK e
    /\ classes e = Some [Str "a"; Str "b"; Str "z"]
    /\ exists cls,
         classes e = Some cls
         /\ strictly_sorted cls = true
         /\ (if _ignore_missing e0
             then forall v, In v cls <-> In v [Str "b"; Str "a"; Str "b"]
             else exists c,
                 np_cast (np_dtype [Str "b"; Str "a"; Str "b"])
                   (missing_replaced_by e0) = OK c
                 /\ forall v, In v cls <->
                              v = c \/ In v [Str "b"; Str "a"; Str "b"]).
Proof.
  do 2 eexists. split; [reflexivity|]. split; [reflexivity|].
  split; [reflexivity|].
  eapply fit_classes_sorted_exact; reflexivity.
Defined.

(** X5. After [fit] the classes held by the delegate, and by the string
    pre-encoder when there is one, are the observed classes of the
    encoder. *)
Theorem fit_estimators_hold_classes
    (e0 e : t) (d0 : estimator) (col : list cell) :
  delegate e0 = Some d0 ->
  fit e0 col = OK e ->
  exists cls,
    classes e = Some cls
    /\ delegate e = Some (mk_estimator (est_kind d0) (Some cls))
    /\ (forall se, str_encoder e0 = Some se ->
                   str_encoder e = Some (mk_estimator (est_kind se) (Some cls))).
Proof.
  intros Hd Hfit.
  destruct (fit_inv _ _ _ _ Hd Hfit)
    as [cls [dcs [Hcls [Hu [Hf [Hdel [_ [_ [_ [_ [_ Hstr]]]]]]]]]]].
  destruct (fit_column _ _ _ _ Hu) as [col' [Hu' _]].
  pose proof (np_unique_of_sorted _ (np_unique_sorted _ _ Hu')) as Hid.
  exists cls. split; [assumption|]. split.
  - destruct (est_fit_inv _ _ _ Hf) as [cs [Hcs Heq]].
    rewrite Hid in Hcs. inversion Hcs; subst cs.
    inversion Heq; subst dcs. assumption.
  - intros se Hse. rewrite Hse in Hstr.
    destruct Hstr as [se' [enc [Hft [-> _]]]].
    apply est_fit_transform_inv in Hft. destruct Hft as [Hft _].
    destruct (est_fit_inv _ _ _ Hft) as [cs [Hcs ->]].
    rewrite Hid in Hcs. inversion Hcs; subst cs. reflexivity.
Qed.

Lemma fit_estimators_hold_classes_witness :
  exists e0 e cls,
    __init__ "one-hot" false py_float "mask" None (Str "") = OK e0
    /\ fit e0 [Str "b"; Str "a"] = OK e
    /\ classes e = Some cls
    /\ delegate e = Some (mk_estimator OneHotEncoder_ignore (Some cls))
    /\ str_encoder e = Some (mk_estimator OrdinalEncoder (Some cls)).
Proof.
  do 2 eexists.
  match goal with
  | |- exists cls, __init__ _ _ _ _ _ _ = OK ?e0 /\ _ =>
      destruct (fit_estimators_hold_classes
                  (mk false "mask" [NoneV] (Str "") None py_float
                      (Some (new_estimator OrdinalEncoder)) None None
                      (Some (new_estimator OneHotEncoder_ignore)))
                  (mk false "mask" [NoneV] (Str "")
                      (Some (Row [1; 0; 0])) py_float
                      (Some (mk_estimator OrdinalEncoder
                               (Some [Str ""; Str "a"; Str "b"])))
                      (Some [Str ""; Str "a"; Str "b"])
                      (Some [Num 0; Num 1; Num 2])
                      (Some (mk_estimator OneHotEncoder_ignore
                               (Some [Str ""; Str "a"; Str "b"]))))
                  (new_estimator OneHotEncoder_ignore)
                  [Str "b"; Str "a"] eq_refl eq_refl)
        as [cls [H1 [H2 H3]]]
  end.
  exists cls. split; [reflexivity|]. split; [reflexivity|].
  split; [exact H1|]. split; [exact H2|].
  apply (H3 (new_estimator OrdinalEncoder)). reflexivity.
Defined.

Lemma est_fit_kind (d1 d2 : estimator) (xs : list cell) :
  est_kind d1 = est_kind d2 -> est_fit d1 xs = est_fit d2 xs.
Proof. unfold est_fit. intros ->. reflexivity. Qed.

Lemma est_fit_transform_kind (d1 d2 : estimator) (xs : list cell) :
  est_kind d1 = est_kind d2 ->
  est_fit_transform d1 xs = est_fit_transform d2 xs.
Proof.
  unfold est_fit_transform. intros H. rewrite (est_fit_kind _ _ xs H).
  reflexivity.
Qed.

(** What [fit] leaves in [missing_encoded_value]: under the mask policy the
    first code given by the delegate to the classes, otherwise what was
    there. *)
Lemma fit_missing_encoded_value (e0 e : t) (d0 : estimator) (col : list cell) :
  delegate e0 = Some d0 ->
  fit e0 col = OK e ->
  if _mask_missing e0 then
    exists cls c r,
      classes e = Some cls
      /\ est_transform (mk_estimator (est_kind d0) (Some cls)) (Seq cls)
         = OK (c :: r)
      /\ missing_encoded_value e = Some c
  else missing_encoded_value e = missing_encoded_value e0.
Proof.
  intros Hd Hfit.
  destruct (fit_estimators _ _ _ _ Hd Hfit)
    as [cls [Hcls [_ [Hdel _]]]].
  unfold fit in Hfit. rewrite Hd in Hfit.
  destruct (if _ignore_missing e0 then _ else _) as [cls0|]; simpl in Hfit;
    try discriminate.
  destruct (match str_encoder e0 with Some _ => _ | None => _ end)
    as [p|]; simpl in Hfit; try discriminate.
  destruct (_mask_missing e0).
  - destruct (est_fit_transform d0 cls0) as [[d' r]|] eqn:E; simpl in Hfit;
      try discriminate.
    destruct r as [|c r]; simpl in Hfit; try discriminate.
    inversion Hfit; subst; simpl in *. inversion Hcls; subst cls0.
    apply est_fit_transform_inv in E. destruct E as [_ E].
    inversion Hdel; subst d'. exists cls, c, r. auto.
  - destruct (est_fit d0 cls0); simpl in Hfit; try discriminate.
    inversion Hfit; subst; reflexivity.
Qed.

(** X6. Fitting again replaces what the first [fit] learned: fitting on
    [col2] an encoder already fitted on [col1] gives the encoder that [fit]
    on [col2] alone gives. *)
Theorem refit_overwrites (e0 e1 : t) (col1 col2 : list cell) :
  fit e0 col1 = OK e1 ->
  fit e1 col2 = fit e0 col2.
Proof.
  intros Hfit. destruct (delegate e0) as [d0|] eqn:Hd.
  2:{ unfold fit in Hfit. rewrite Hd in Hfit. inversion Hfit; reflexivity. }
  destruct (fit_frame _ _ _ Hfit)
    as [H1 [H2 [H3 [H4 [H5 [H6 H7]]]]]].
  pose proof (fit_missing_encoded_value _ _ _ _ Hd Hfit) as Hmev.
  destruct (fit_inv _ _ _ _ Hd Hfit)
    as [cls [dcs [_ [_ [_ [Hdel _]]]]]].
  unfold fit at 1 2. rewrite Hd, Hdel.
  unfold _ignore_missing, _mask_missing in *. rewrite H1, H2, H3, H4, H5.
  simpl est_kind.
  assert (Hse : forall cls2,
             match str_encoder e1 with
             | Some se => r <- est_fit_transform se cls2 ;;
                          OK (Some (fst r), snd r)
             | None => OK (None, cls2)
             end
             = match str_encoder e0 with
               | Some se => r <- est_fit_transform se cls2 ;;
                            OK (Some (fst r), snd r)
               | None => OK (None, cls2)
               end).
  { intros cls2. destruct (str_encoder e1) as [s1|], (str_encoder e0) as [s0|];
      simpl in H7; try discriminate; [|reflexivity].
    inversion H7 as [Hk]. rewrite (est_fit_transform_kind _ _ cls2 Hk).
    reflexivity. }
  match goal with
  | |- bind ?c _ = bind ?c _ => destruct c as [cls2|]; [|reflexivity]
  end.
  simpl. rewrite Hse.
  destruct (match str_encoder e0 with Some _ => _ | None => _ end) as [p|];
    [|reflexivity].
  simpl.
  assert (Hk : est_kind (mk_estimator (est_kind d0) (Some dcs)) = est_kind d0)
    by reflexivity.
  rewrite (est_fit_transform_kind _ _ cls2 Hk), (est_fit_kind _ _ cls2 Hk).
  destruct (negb (for_target e0) && String.eqb (missing_handle e0) "mask");
    [reflexivity|].
  rewrite Hmev. reflexivity.
Qed.

Lemma refit_overwrites_witness :
  exists e0 e1 e2,
    __init__ "label" false py_float "mask" None (Str "") = OK e0
    /\ fit e0 [Str "x"; Str "y"] = OK e1
    /\ fit e1 [Str "b"; Str "a"] = OK e2
    /\ classes e2 = Some [Str ""; Str "a"; Str "b"]
    /\ fit e1 [Str "b"; Str "a"] = fit e0 [Str "b"; Str "a"].
Proof.
  do 3 eexists. split; [reflexivity|]. split; [reflexivity|].
  split; [reflexivity|]. split; [reflexivity|].
  apply (refit_overwrites _ _ [Str "x"; Str "y"]). reflexivity.
Defined.

(** X7. [fit] assigns [missing_encoded_value] under the mask policy only:
    with another policy a fitted encoder still holds [None] there, and with
    strategy ['label'] under the mask policy it holds the code 0, the code
    of the least class. *)
Theorem missing_encoded_value_after_fit
    (type : string) (target : bool) (et : pytype) (mh : string)
    (mv : option (list cell)) (rb : cell) (col : list cell) (e0 e : t) :
  __init__ type target et mh mv rb = OK e0 ->
  fit e0 col = OK e ->
  (_mask_missing e0 = false -> missing_encoded_value e = None)
  /\ (type = "label" -> _mask_missing e0 = true ->
      missing_encoded_value e = Some (Num 0)).
Proof.
  intros Hinit Hfit.
  assert (Hnone : missing_encoded_value e0 = None).
  { unfold __init__ in Hinit. destruct (negb _); [discriminate|].
    destruct (String.eqb type "label");
      [|destruct (String.eqb type "one-hot");
        [|destruct (String.eqb type "no-op")]];
      inversion Hinit; reflexivity. }
  destruct (init_inv _ _ _ _ _ _ _ Hinit) as [_ [Htg [_ [_ [_ [_ Hkind]]]]]].
  destruct (delegate e0) as [d0|] eqn:Hd.
  2:{ unfold fit in Hfit. rewrite Hd in Hfit. inversion Hfit; subst e.
      split; [auto|]. intros -> _.
      destruct Hkind as [[_ [_ H]]|[[H _]|[H _]]]; discriminate. }
  pose proof (fit_missing_encoded_value _ _ _ _ Hd Hfit) as Hmev.
  split.
  - intros Hm. rewrite Hm in Hmev. congruence.
  - intros -> Hm. rewrite Hm in Hmev.
    destruct Hmev as [cls [c [r [_ [Ht ->]]]]].
    destruct Hkind as [[_ [_ H]]|[[H _]|[H _]]]; try discriminate.
    inversion H; subst d0; clear H.
    unfold _mask_missing in Hm. rewrite Htg in Hm.
    destruct target; [discriminate|]. simpl in Ht.
    unfold est_transform in Ht; simpl in Ht.
    destruct cls as [|c0 cls]; simpl in Ht; [discriminate|].
    unfold encode_one in Ht at 1. simpl in Ht.
    rewrite cell_eqb_refl in Ht. simpl in Ht.
    destruct (mapM _ cls); simpl in Ht; inversion Ht. reflexivity.
Qed.

Lemma missing_encoded_value_after_fit_witness :
  exists e0 e e0' e',
    __init__ "label" false py_float "mask" None (Str "zz") = OK e0
    /\ fit e0 [Str "bb"; Str "aa"] = OK e
    /\ missing_encoded_value e = Some (Num 0)
    /\ __init__ "label" false py_float "encode" None (Str "zz") = OK e0'
    /\ fit e0' [Str "bb"; Str "aa"] = OK e'
    /\ missing_encoded_value e' = None.
Proof.
  do 4 eexists. split; [reflexivity|]. split; [reflexivity|].
  split.
  - eapply (proj2 (missing_encoded_value_after_fit "label" false py_float
                     "mask" None (Str "zz") [Str "bb"; Str "aa"] _ _
                     eq_refl eq_refl)); reflexivity.
  - split; [reflexivity|]. split; [reflexivity|].
    eapply (proj1 (missing_encoded_value_after_fit "label" false py_float
                     "encode" None (Str "zz") [Str "bb"; Str "aa"] _ _
                     eq_refl eq_refl)); reflexivity.
Defined.

(** X8. Whatever the strategy, the policy and the state of the encoder,
    when [transform] of a sequence returns, it returns a sequence with one
    entry per entry of the argument. *)
Theorem transform_keeps_length (e : t) (xs : list cell) (r : pyobj) :
  transform e (Seq xs) = OK r ->
  exists ys, r = Seq ys /\ List.length ys = List.length xs.
Proof.
  unfold transform. destruct (delegate e) as [d|].
  2:{ intros H; inversion H; eauto. }
  cbn [fst snd].
  assert (Hpre : forall v,
             match str_encoder e with
             | Some se => r0 <- est_transform se (Seq xs) ;; OK (Seq r0)
             | None => OK (Seq xs)
             end = OK v ->
             exists zs, v = Seq zs /\ List.length zs = List.length xs).
  { intros v. destruct (str_encoder e) as [se|].
    - destruct (est_transform se (Seq xs)) as [r0|] eqn:E; simpl;
        try discriminate.
      intros H; inversion H; subst. exists r0; split; [reflexivity|].
      apply (est_transform_length _ _ _ E).
    - intros H; inversion H; eauto. }
  destruct (match str_encoder e with Some _ => _ | None => _ end) as [v|];
    cbn [bind]; try discriminate.
  destruct (Hpre v eq_refl) as [zs [-> Hzs]]. clear Hpre.
  assert (Hdirect :
            (res <- est_transform d (Seq zs) ;; OK (Seq res)) = OK r ->
            exists ys, r = Seq ys /\ List.length ys = List.length xs).
  { destruct (est_transform d (Seq zs)) as [res|] eqn:E; simpl;
      try discriminate.
    intros H; inversion H; subst. exists res; split; [reflexivity|].
    rewrite (est_transform_length _ _ _ E); assumption. }
  destruct (_mask_missing e || _encode_missing e); [|exact Hdirect].
  cbn [as_seq bind].
  destruct (existsb _ _); [|exact Hdirect].
  match goal with
  | |- context [set_mask ?a0 _ _] =>
      assert (Hitems : items a0 = zs) by (destruct (str_encoder e); reflexivity)
  end.
  destruct (if _mask_missing e then get_mask _ _ else OK []);
    cbn [bind]; try discriminate.
  destruct (set_mask _ _ _) as [nvec|] eqn:En; cbn [bind]; try discriminate.
  destruct (est_transform d (Seq (items nvec))) as [res|] eqn:Er; cbn [bind];
    try discriminate.
  pose proof (set_mask_length _ _ _ _ En) as Hn.
  pose proof (est_transform_length _ _ _ Er) as Hr.
  destruct (_mask_missing e && negb (pytype_eqb (encoded_type e) py_int)).
  - match goal with
    | |- bind ?c _ = _ -> _ => destruct c as [res'|] eqn:Es
    end; cbn [bind]; try discriminate.
    intros H; inversion H; subst. exists (items res'); split; [reflexivity|].
    apply set_mask_length in Es. rewrite Es.
    match goal with
    | |- List.length (items (if ?b then _ else _)) = _ => destruct b
    end; simpl; congruence.
  - cbn [bind]. intros H; inversion H; subst. simpl.
    exists res; split; [reflexivity | congruence].
Qed.

Lemma transform_keeps_length_witness :
  exists e0 e ys,
    __init__ "one-hot" true py_float "ignore" None (Str "") = OK e0
    /\ fit e0 [Str "b"; Str "a"; Str "c"] = OK e
    /\ transform e (Seq [Str "c"; Str "c"])
       = OK (Seq [Row [0; 0; 1]; Row [0; 0; 1]])
    /\ Seq [Row [0; 0; 1]; Row [0; 0; 1]] = Seq ys
    /\ List.length ys = List.length [Str "c"; Str "c"].
Proof.
  do 2 eexists.
  match goal with
  | |- exists ys, _ /\ _ /\ transform ?e ?v = OK ?r /\ _ =>
      destruct (transform_keeps_length
                  (mk true "ignore" [NoneV] (Str "") None py_int None
                      (Some [Str "a"; Str "b"; Str "c"])
                      (Some [Str "a"; Str "b"; Str "c"])
                      (Some (mk_estimator LabelBinarizer
                               (Some [Str "a"; Str "b"; Str "c"]))))
                  [Str "c"; Str "c"] r eq_refl) as [ys [H1 H2]]
  end.
  exists ys. split; [reflexivity|]. split; [reflexivity|].
  split; [reflexivity|]. split; [exact H1 | exact H2].
Defined.

(** [transform] of a target encoder depends on its estimators only. *)
Lemma transform_target (e1 e2 : t) (vec : pyobj) :
  delegate e1 = delegate e2 ->
  str_encoder e1 = str_encoder e2 ->
  for_target e1 = true -> for_target e2 = true ->
  transform e1 vec = transform e2 vec.
Proof.
  intros Hd Hs H1 H2. unfold transform, _mask_missing, _encode_missing.
  rewrite Hd, Hs, H1, H2. reflexivity.
Qed.

(** X10. For a target the missing-value configuration has no effect: the
    output type is [int], and two target encoders of the same strategy,
    fitted on the same column, transform and decode every argument alike
    whatever their policies, sentinels, replacement values and requested
    output types. *)
Theorem target_ignores_missing_configuration
    (type : string) (et1 et2 : pytype) (mh1 mh2 : string)
    (mv1 mv2 : option (list cell)) (rb1 rb2 : cell) (col : list cell)
    (a0 a b0 b : t) :
  __init__ type true et1 mh1 mv1 rb1 = OK a0 ->
  __init__ type true et2 mh2 mv2 rb2 = OK b0 ->
  fit a0 col = OK a ->
  fit b0 col = OK b ->
  encoded_type a = py_int
  /\ classes a = classes b
  /\ (forall vec, transform a vec = transform b vec)
  /\ (forall vec, inverse_transform a vec = inverse_transform b vec).
Proof.
  intros Ha Hb Hfa Hfb.
  destruct (init_inv _ _ _ _ _ _ _ Ha) as [_ [Hta [_ [_ [Hea [_ Hka]]]]]].
  destruct (init_inv _ _ _ _ _ _ _ Hb) as [_ [Htb [_ [_ [_ [_ Hkb]]]]]].
  destruct (fit_frame _ _ _ Hfa) as [Hta' [_ [_ [_ [Hea' _]]]]].
  destruct (fit_frame _ _ _ Hfb) as [Htb' _].
  assert (Hsame : delegate a0 = delegate b0 /\ str_encoder a0 = None
                  /\ str_encoder b0 = None).
  { destruct Hka as [[T1 [S1 D1]]|[[T1 [S1 D1]]|[T1 [S1 D1]]]];
      destruct Hkb as [[T2 [S2 D2]]|[[T2 [S2 D2]]|[T2 [S2 D2]]]];
      subst type; try discriminate; simpl in *; repeat split; congruence. }
  destruct Hsame as [Hd [Hsa Hsb]].
  assert (Hparts : classes a = classes b /\ delegate a = delegate b
                   /\ str_encoder a = str_encoder b).
  { destruct (delegate a0) as [d0|] eqn:Hda.
    - symmetry in Hd.
      destruct (fit_inv _ _ _ _ Hda Hfa)
        as [ca [da [Hca [Hua [Hfa' [Hdela [_ [_ [_ [_ [_ Hstra]]]]]]]]]]].
      destruct (fit_inv _ _ _ _ Hd Hfb)
        as [cb [db [Hcb [Hub [Hfb' [Hdelb [_ [_ [_ [_ [_ Hstrb]]]]]]]]]]].
      assert (Hia : _ignore_missing a0 = true)
        by (unfold _ignore_missing; rewrite Hta; reflexivity).
      assert (Hib : _ignore_missing b0 = true)
        by (unfold _ignore_missing; rewrite Htb; reflexivity).
      rewrite Hia in Hua. simpl in Hua. rewrite Hib in Hub. simpl in Hub.
      rewrite Hua in Hub.
      inversion Hub; subst cb.
      rewrite Hfa' in Hfb'. inversion Hfb'; subst db.
      rewrite Hsa in Hstra. rewrite Hsb in Hstrb.
      destruct Hstra as [-> _]. destruct Hstrb as [-> _].
      repeat split; congruence.
    - unfold fit in Hfa, Hfb. rewrite <- Hd in Hfb. rewrite Hda in Hfa.
      inversion Hfa; inversion Hfb; subst.
      destruct (init_inv _ _ _ _ _ _ _ Ha) as [_ [_ [_ [_ [_ [Hc1 _]]]]]].
      destruct (init_inv _ _ _ _ _ _ _ Hb) as [_ [_ [_ [_ [_ [Hc2 _]]]]]].
      repeat split; congruence. }
  destruct Hparts as [Hc [Hd' Hs']].
  split; [congruence|]. split; [assumption|]. split.
  - intros vec. apply transform_target; congruence.
  - intros vec. unfold inverse_transform. rewrite Hd'. reflexivity.
Qed.

Lemma target_ignores_missing_configuration_witness :
  exists a0 a b0 b,
    __init__ "label" true py_float "ignore" None (Str "") = OK a0
    /\ __init__ "label" true (py_other "float32") "mask" (Some [Str "a"])
         (Str "a") = OK b0
    /\ fit a0 [Str "b"; Str "a"] = OK a
    /\ fit b0 [Str "b"; Str "a"] = OK b
    /\ transform b (Seq [Str "a"; Str "b"]) = OK (Seq [Num 0; Num 1])
    /\ encoded_type a = py_int
    /\ classes a = classes b
    /\ (forall vec, transform a vec = transform b vec)
    /\ (forall vec, inverse_transform a vec = inverse_transform b vec).
Proof.
  do 4 eexists. split; [reflexivity|]. split; [reflexivity|].
  split; [reflexivity|]. split; [reflexivity|]. split; [reflexivity|].
  eapply (target_ignores_missing_configuration "label" py_float
            (py_other "float32") "ignore" "mask" None (Some [Str "a"])
            (Str "") (Str "a") [Str "b"; Str "a"]); reflexivity.
Defined.

Lemma init_missing_none
    (type : string) (target : bool) (et : pytype) (mh : string)
    (mv : option (list cell)) (rb : cell) (e0 : t) :
  __init__ type target et mh mv rb = OK e0 -> is_missing e0 NoneV = true.
Proof.
  intros Hinit.
  assert (Hmv : missing_values e0
                = match mv with
                  | Some (x :: l) => (x :: l) ++ [NoneV]
                  | _ => [NoneV]
                  end).
  { unfold __init__ in Hinit. destruct (negb _); [discriminate|].
    destruct (String.eqb type "label");
      [|destruct (String.eqb type "one-hot");
        [|destruct (String.eqb type "no-op")]];
      inversion Hinit; reflexivity. }
  unfold is_missing, py_in. rewrite Hmv.
  destruct mv as [[|x l]|]; try reflexivity.
  rewrite existsb_app. simpl. apply orb_true_r.
Qed.

(** What construction and [fit] give for a label feature encoder whose
    policy is not ['ignore']. *)
Lemma label_feature_fitted (et : pytype) (mh : string)
    (mv : option (list cell)) (rb : cell) (col cls : list cell) (e0 e : t) :
  mh <> "ignore" ->
  __init__ "label" false et mh mv rb = OK e0 ->
  fit e0 col = OK e ->
  classes e = Some cls ->
  delegate e = Some (mk_estimator OrdinalEncoder (Some cls))
  /\ str_encoder e = None
  /\ for_target e = false
  /\ missing_handle e = mh
  /\ encoded_type e = et
  /\ is_missing e NoneV = true.
Proof.
  intros Hmh Hinit Hfit Hcls.
  pose proof (init_missing_none _ _ _ _ _ _ _ Hinit) as Hnone.
  destruct (init_inv _ _ _ _ _ _ _ Hinit)
    as [_ [Htg [Hh [_ [Het [_ Hkind]]]]]].
  destruct Hkind as [[_ [Hs Hd]]|[[Ht _]|[Ht _]]]; try discriminate.
  destruct (fit_frame _ _ _ Hfit) as [Htg' [Hh' [Hmv' [_ [Het' _]]]]].
  destruct (fit_estimators _ _ _ _ Hd Hfit)
    as [cls' [Hcls' [_ [Hdel [_ Hstr]]]]].
  rewrite Hcls in Hcls'. inversion Hcls'; subst cls'.
  simpl in *. repeat split; try congruence; auto.
  unfold is_missing in *. rewrite Hmv'. assumption.
Qed.


(** Assigning a value that the array keeps whole substitutes it for the
    masked entries. *)
Lemma set_mask_whole (e : t) (xs : list cell) :
  np_cast (np_dtype xs) (missing_replaced_by e) = OK (missing_replaced_by e) ->
  set_mask (np_array xs) (map (is_missing e) xs) (missing_replaced_by e)
  = OK (mk_ndarray (np_dtype xs) (substituted e xs)).
Proof.
  intros Hc. unfold set_mask, np_array; simpl. rewrite Hc; simpl.
  rewrite write_mask_map. reflexivity.
Qed.



Lemma np_dtype_with_None (xs : list cell) :
  In NoneV xs -> np_dtype xs = dt_object.
Proof.
  intros Hin. unfold np_dtype. destruct xs as [|x xs]; [destruct Hin|].
  assert (H : forall f : cell -> bool,
             f NoneV = false -> forallb f (x :: xs) = false).
  { intros f Hf. destruct (forallb f (x :: xs)) eqn:E; [|reflexivity].
    rewrite forallb_forall in E. rewrite (E _ Hin) in Hf. discriminate. }
  rewrite (H is_str), (H is_num), (H is_num_or_nan); reflexivity.
Qed.

Lemma py_in_filter (f : cell -> bool) (v : cell) (xs : list cell) :
  py_in v (filter f xs) = true <-> In v xs /\ f v = true.
Proof.
  unfold py_in. rewrite existsb_exists. split.
  - intros [x [Hx Hxv]]. apply cell_eqb_eq in Hxv; subst x.
    apply filter_In in Hx. assumption.
  - intros H. exists v. split; [apply filter_In; assumption|].
    apply cell_eqb_refl.
Qed.

(** The codes of a sequence whose entries are missing or classes, and the
    codes once NaN is written at the missing entries. *)
Lemma restore_marker (e : t) (cls xs : list cell) :
  In (missing_replaced_by e) cls ->
  Forall (fun x => is_missing e x = true \/ In x cls) xs ->
  exists res ys,
    mapM (encode_one OrdinalEncoder cls) (substituted e xs) = OK res
    /\ write_mask res (map (is_missing e) xs) NaN = OK ys
    /\ marker_restored e (mk_estimator OrdinalEncoder (Some cls)) xs ys.
Proof.
  intros Hrb. unfold marker_restored.
  induction 1 as [|x xs Hx _ [res [ys [IH1 [IH2 IH3]]]]]; simpl.
  - exists [], []; repeat split; constructor.
  - destruct (is_missing e x) eqn:Hm.
    + destruct (encode_one_ordinal cls _ Hrb) as [i Hi].
      exists (Num i :: res), (NaN :: ys). rewrite Hi, IH1; simpl.
      rewrite IH2; simpl. repeat split; constructor; [|assumption].
      rewrite Hm; reflexivity.
    + destruct Hx as [Hx|Hx]; [discriminate|].
      destruct (encode_one_ordinal cls _ Hx) as [i Hi].
      exists (Num i :: res), (Num i :: ys). rewrite Hi, IH1; simpl.
      rewrite IH2; simpl. repeat split; constructor; [|assumption].
      rewrite Hm. split; [discriminate|].
      unfold est_transform; simpl. rewrite Hi; reflexivity.
Qed.

(** X12. Under the mask policy with [float] as output type, a non-target
    encoder of strategy ['label'] casts its integer codes to [float] only
    when a [None] is among the missing entries.  With a [None] in the
    sequence (the replacement value and the other entries being classes) it
    returns NaN exactly at the missing entries and the delegate's code
    elsewhere; with missing entries none of which is [None] it raises. *)
Theorem mask_writes_placeholder
    (mv : option (list cell)) (rb : cell) (col cls : list cell) (e0 e : t)
    (xs : list cell) :
  __init__ "label" false py_float "mask" mv rb = OK e0 ->
  fit e0 col = OK e ->
  classes e = Some cls ->
  (In NoneV xs ->
   In (missing_replaced_by e) cls ->
   Forall (fun x => is_missing e x = true \/ In x cls) xs ->
   mask_restores_marker e xs)
  /\ (~ In NoneV xs ->
      Exists (fun x => is_missing e x = true) xs ->
      exists err, transform e (Seq xs) = Raise err).
Proof.
  intros Hinit Hfit Hcls.
  assert (Hmh : "mask" <> "ignore") by discriminate.
  destruct (label_feature_fitted _ _ _ _ _ _ _ _ Hmh Hinit Hfit Hcls)
    as [Hd [Hs [Htg [Hh [Het Hnone]]]]].
  assert (Hpol : _mask_missing e = true /\ _encode_missing e = false).
  { unfold _mask_missing, _encode_missing. rewrite Htg, Hh. auto. }
  destruct Hpol as [Hmask Henc].
  split.
  - intros Hin Hrb Hxs.
    destruct (restore_marker e cls xs Hrb Hxs) as [res [ys [H1 [H2 H3]]]].
    exists (mk_estimator OrdinalEncoder (Some cls)), ys.
    split; [assumption|]. split; [|assumption].
    rewrite (transform_seq e _ xs Hd Hs). rewrite Hmask, Henc, Het. simpl.
    assert (Hany : existsb (fun b : bool => b) (map (is_missing e) xs) = true).
    { apply existsb_exists. exists true. split; [|reflexivity].
      apply in_map_iff. exists NoneV; auto. }
    rewrite Hany.
    assert (Hcast : np_cast (np_dtype xs) (missing_replaced_by e)
                    = OK (missing_replaced_by e))
      by (rewrite (np_dtype_with_None _ Hin); reflexivity).
    rewrite (set_mask_whole e xs Hcast). simpl.
    unfold est_transform; simpl. rewrite H1; simpl.
    assert (Hp : py_in NoneV (filter (is_missing e) xs) = true)
      by (apply py_in_filter; auto).
    rewrite Hp. unfold set_mask, astype; simpl. rewrite H2. reflexivity.
  - intros Hnin Hex.
    rewrite (transform_seq e _ xs Hd Hs). rewrite Hmask, Henc, Het. simpl.
    assert (Hany : existsb (fun b : bool => b) (map (is_missing e) xs) = true).
    { apply Exists_exists in Hex. destruct Hex as [x [Hx Hm]].
      apply existsb_exists. exists true. split; [|reflexivity].
      apply in_map_iff. exists x; auto. }
    rewrite Hany.
    destruct (set_mask (np_array xs) _ _) as [nvec|]; simpl; [|eauto].
    destruct (est_transform _ _) as [res|]; simpl; [|eauto].
    assert (Hp : py_in NoneV (filter (is_missing e) xs) = false).
    { destruct (py_in NoneV (filter (is_missing e) xs)) eqn:E; [|reflexivity].
      apply py_in_filter in E. tauto. }
    rewrite Hp. unfold set_mask; simpl. eauto.
Qed.

Lemma mask_writes_placeholder_witness :
  exists e0 e,
    __init__ "label" false py_float "mask" (Some [Str "NA"]) (Str "") = OK e0
    /\ fit e0 [Str "b"; Str "a"] = OK e
    /\ transform e (Seq [Str "b"; NoneV; Str "NA"])
       = OK (Seq [Num 2; NaN; NaN])
    /\ mask_restores_marker e [Str "b"; NoneV; Str "NA"]
    /\ transform e (Seq [Str "b"; Str "NA"]) = Raise ValueError
    /\ exists err, transform e (Seq [Str "b"; Str "NA"]) = Raise err.
Proof.
  do 2 eexists. split; [reflexivity|]. split; [reflexivity|].
  split; [reflexivity|].
  match goal with
  | |- mask_restores_marker ?e _ /\ _ =>
      pose proof (fun xs =>
                    mask_writes_placeholder (Some [Str "NA"]) (Str "")
                      [Str "b"; Str "a"] [Str ""; Str "a"; Str "b"] _ e xs
                      eq_refl eq_refl eq_refl) as H
  end.
  split; [|split; [reflexivity|]].
  - apply (proj1 (H [Str "b"; NoneV; Str "NA"])).
    + simpl; auto.
    + simpl; auto.
    + repeat (apply Forall_cons || apply Forall_nil); simpl; tauto.
  - apply (proj2 (H [Str "b"; Str "NA"])).
    + simpl. intros [E|[E|[]]]; discriminate.
    + apply Exists_cons_tl. apply Exists_cons_hd. reflexivity.
Defined.

Lemma est_transform_unfitted (d : estimator) (vec : pyobj) :
  est_classes d = None -> exists err, est_transform d vec = Raise err.
Proof.
  intros H. unfold est_transform. rewrite H.
  destruct (as_seq ValueError vec); simpl; eauto.
Qed.

(** X13. Before [fit], [transform] and [inverse_transform] of an encoder
    built with strategy ['label'] or ['one-hot'] raise on every argument:
    nothing is encoded or decoded by an encoder that was not fitted. *)
Theorem unfitted_encoder_raises
    (type : string) (target : bool) (et : pytype) (mh : string)
    (mv : option (list cell)) (rb : cell) (e0 : t) (vec : pyobj) :
  type <> "no-op" ->
  __init__ type target et mh mv rb = OK e0 ->
  (exists err, transform e0 vec = Raise err)
  /\ (exists err, inverse_transform e0 vec = Raise err).
Proof.
  intros Hty Hinit.
  destruct (init_inv _ _ _ _ _ _ _ Hinit) as [_ [_ [_ [_ [_ [_ Hkind]]]]]].
  assert (H : exists d, delegate e0 = Some d /\ est_classes d = None
                        /\ (str_encoder e0 = None
                            \/ exists se, str_encoder e0 = Some se
                                          /\ est_classes se = None)).
  { destruct Hkind as [[_ [Hs Hd]]|[[_ [Hs Hd]]|[Ht _]]]; [| |tauto].
    - eexists; split; [exact Hd|]. split; [reflexivity | auto].
    - eexists; split; [exact Hd|]. split; [reflexivity|].
      destruct target; [auto|]. right. eexists; split; [exact Hs|reflexivity]. }
  destruct H as [d [Hd [Hc Hse]]]. split.
  - unfold transform. rewrite Hd. cbn [fst snd].
    destruct Hse as [Hs|[se [Hs Hsc]]]; rewrite Hs.
    + cbn [bind].
      assert (Hdir : forall (v : pyobj) (k : pyobj -> result pyobj),
                 exists err,
                   (res <- est_transform d v ;; k (Seq res)) = Raise err).
      { intros v k. destruct (est_transform_unfitted d v Hc) as [err ->].
        simpl; eauto. }
      destruct (_mask_missing e0 || _encode_missing e0); [|apply Hdir].
      destruct (as_seq TypeError _) as [xs|]; cbn [bind]; [|eauto].
      destruct (existsb _ _); [|apply Hdir].
      destruct (if _mask_missing e0 then get_mask _ _ else OK []);
        cbn [bind]; [|eauto].
      destruct (set_mask _ _ _) as [nvec|]; cbn [bind]; [|eauto].
      destruct (est_transform_unfitted d (Seq (items nvec)) Hc) as [err ->].
      simpl; eauto.
    + match goal with
      | |- context [est_transform se ?v] =>
          destruct (est_transform_unfitted se v Hsc) as [err ->]
      end.
      simpl; eauto.
  - unfold inverse_transform. rewrite Hd.
    unfold est_inverse_transform. rewrite Hc.
    destruct (as_seq ValueError vec); simpl; eauto.
Qed.

Lemma unfitted_encoder_raises_witness :
  exists e0,
    __init__ "label" true py_float "ignore" None (Str "") = OK e0
    /\ transform e0 (Seq [Str "a"]) = Raise NotFittedError
    /\ (exists err, transform e0 (Seq [Str "a"]) = Raise err)
    /\ (exists err, inverse_transform e0 (Seq [Str "a"]) = Raise err).
Proof.
  eexists. split; [reflexivity|]. split; [reflexivity|].
  eapply (unfitted_encoder_raises "label" true py_float "ignore" None (Str "")).
  - discriminate.
  - reflexivity.
Defined.

(** Two instances that differ by the policy, one with ['mask'] and [int] as
    output type and one with ['encode'], transform alike. *)
Lemma transform_mask_int (e1 e2 : t) (vec : pyobj) :
  delegate e1 = delegate e2 ->
  str_encoder e1 = str_encoder e2 ->
  missing_values e1 = missing_values e2 ->
  missing_replaced_by e1 = missing_replaced_by e2 ->
  for_target e1 = false -> for_target e2 = false ->
  missing_handle e1 = "mask" -> missing_handle e2 = "encode" ->
  encoded_type e1 = py_int ->
  transform e1 vec = transform e2 vec.
Proof.
  intros Hd Hs Hmv Hrb Ht1 Ht2 Hh1 Hh2 Het.
  unfold transform, _mask_missing, _encode_missing.
  rewrite Hd, Hs, Hmv, Hrb, Ht1, Ht2, Hh1, Hh2, Het. simpl.
  destruct (delegate e2) as [d|]; [|reflexivity].
  destruct (str_encoder e2) as [se|].
  - destruct (est_transform se _) as [r|]; [|reflexivity]. simpl.
    rewrite get_mask_map. simpl.
    destruct (existsb _ _); reflexivity.
  - simpl. destruct (as_seq TypeError _) as [xs|]; [|reflexivity]. simpl.
    rewrite get_mask_map. simpl.
    destruct (existsb _ _); reflexivity.
Qed.

Lemma init_same_parts (type : string) (target : bool) (et : pytype)
    (mh mh' : string) (mv : option (list cell)) (rb : cell) (e0 e0' : t) :
  __init__ type target et mh mv rb = OK e0 ->
  __init__ type target et mh' mv rb = OK e0' ->
  delegate e0 = delegate e0' /\ str_encoder e0 = str_encoder e0'
  /\ missing_values e0 = missing_values e0'
  /\ missing_replaced_by e0 = missing_replaced_by e0'
  /\ for_target e0 = target /\ for_target e0' = target
  /\ missing_handle e0 = mh /\ missing_handle e0' = mh'
  /\ encoded_type e0 = (if target then py_int else et)
  /\ encoded_type e0' = (if target then py_int else et).
Proof.
  unfold __init__.
  destruct (negb (existsb (String.eqb mh) _)); [discriminate|].
  destruct (negb (existsb (String.eqb mh') _)); [discriminate|].
  destruct (String.eqb type "label");
    [|destruct (String.eqb type "one-hot");
      [|destruct (String.eqb type "no-op")]];
    intros H H'; inversion H; inversion H'; subst; simpl;
    repeat split; reflexivity.
Qed.

(** Fitting on the same column two instances that differ by the policy,
    neither ignoring missing values, gives the same estimators. *)
Lemma fit_same_parts (e1 e2 f1 f2 : t) (col : list cell) :
  delegate e1 = delegate e2 ->
  str_encoder e1 = str_encoder e2 ->
  missing_replaced_by e1 = missing_replaced_by e2 ->
  _ignore_missing e1 = false -> _ignore_missing e2 = false ->
  fit e1 col = OK f1 -> fit e2 col = OK f2 ->
  delegate f1 = delegate f2 /\ str_encoder f1 = str_encoder f2.
Proof.
  intros Hd Hs Hrb Hi1 Hi2 H1 H2.
  destruct (delegate e1) as [d0|] eqn:Hd1.
  2:{ unfold fit in H1, H2. rewrite <- Hd in H2. rewrite Hd1 in H1.
      inversion H1; inversion H2; subst. split; congruence. }
  symmetry in Hd.
  destruct (fit_inv _ _ _ _ Hd1 H1)
    as [cls [dcs [_ [Hc [Hf [Hdel [_ [_ [_ [_ [_ Hse]]]]]]]]]]].
  destruct (fit_inv _ _ _ _ Hd H2)
    as [cls' [dcs' [_ [Hc' [Hf' [Hdel' [_ [_ [_ [_ [_ Hse']]]]]]]]]]].
  rewrite Hi1 in Hc. rewrite Hi2, <- Hrb, Hc in Hc'.
  inversion Hc'; subst cls'.
  rewrite Hf in Hf'. inversion Hf'; subst dcs'.
  split; [congruence|].
  rewrite <- Hs in Hse'. destruct (str_encoder e1) as [se|].
  - destruct Hse as [s1 [c1 [Hft [-> _]]]].
    destruct Hse' as [s2 [c2 [Hft' [-> _]]]]. congruence.
  - destruct Hse as [-> _]. destruct Hse' as [-> _]. reflexivity.
Qed.

(** X20. With [int] as output type the mask policy is the encode policy:
    two non-target encoders that differ by these two policies only, fitted
    on the same column, return the same result, or raise the same
    exception, on every argument; no missing marker is written. *)
Theorem mask_int_like_encode
    (type : string) (mv : option (list cell)) (rb : cell) (col : list cell)
    (em ee fm fe : t) (vec : pyobj) :
  __init__ type false py_int "mask" mv rb = OK em ->
  __init__ type false py_int "encode" mv rb = OK ee ->
  fit em col = OK fm ->
  fit ee col = OK fe ->
  transform fm vec = transform fe vec.
Proof.
  intros Him Hie Hfm Hfe.
  destruct (init_same_parts _ _ _ _ _ _ _ _ _ Him Hie)
    as [Hd [Hs [Hmv [Hrb [Ht1 [Ht2 [Hh1 [Hh2 [Het _]]]]]]]]].
  assert (Hi1 : _ignore_missing em = false)
    by (unfold _ignore_missing; rewrite Ht1, Hh1; reflexivity).
  assert (Hi2 : _ignore_missing ee = false)
    by (unfold _ignore_missing; rewrite Ht2, Hh2; reflexivity).
  destruct (fit_same_parts _ _ _ _ _ Hd Hs Hrb Hi1 Hi2 Hfm Hfe)
    as [Hd' Hs'].
  destruct (fit_frame _ _ _ Hfm) as [Ha [Hb [Hc [Hdd [He _]]]]].
  destruct (fit_frame _ _ _ Hfe) as [Ha' [Hb' [Hc' [Hdd' [He' _]]]]].
  apply transform_mask_int; congruence.
Qed.

Lemma mask_int_like_encode_witness :
  exists em ee fm fe,
    __init__ "label" false py_int "mask" (Some [Str "NA"]) (Str "") = OK em
    /\ __init__ "label" false py_int "encode" (Some [Str "NA"]) (Str "")
       = OK ee
    /\ fit em [Str "b"; Str "a"] = OK fm
    /\ fit ee [Str "b"; Str "a"] = OK fe
    /\ transform fm (Seq [Str "b"; NoneV; Str "NA"])
       = OK (Seq [Num 2; Num 0; Num 0])
    /\ transform fm (Seq [Str "b"; NoneV; Str "NA"])
       = transform fe (Seq [Str "b"; NoneV; Str "NA"]).
Proof.
  do 4 eexists. split; [reflexivity|]. split; [reflexivity|].
  split; [reflexivity|]. split; [reflexivity|]. split; [reflexivity|].
  eapply (mask_int_like_encode "label" (Some [Str "NA"]) (Str "")
            [Str "b"; Str "a"]); reflexivity.
Defined.

(** ** Properties of the adapter [run] *)
Ltac run_unfold :=
  unfold H2OAutoML.run;
  destruct (H2OAutoML.dict_get _ H2OAutoML.metrics_mapping);
  unfold H2OAutoML.try_finally, H2OAutoML.run_body,
    H2OAutoML.run_finally, H2OAutoML.mbind, H2OAutoML.call, H2OAutoML.log,
    H2OAutoML.ret, H2OAutoML.raise, H2OAutoML.teardown_events,
    H2OAutoML.teardown_error; simpl.

Ltac run_cases :=
  repeat match goal with
         | |- context [match ?x with inl _ => _ | inr _ => _ end] =>
             is_var x; destruct x; simpl
         | |- context [match ?x with Some _ => _ | None => _ end] =>
             is_var x; destruct x; simpl
         | |- context [if ?x then _ else _] =>
             is_var x; destruct x; simpl
         | |- context [negb ?x] =>
             is_var x; destruct x; simpl
         end.

(** X15. The [finally] block of [run] comes last on every path: whatever
    the engine answers, and whether the body returns or raises, the trace
    of [run] is the trace of the body followed by the query of the
    connection and, when there is a connection, by [remove_all] and, if that
    did not raise, by [close]; the body itself never tears down. *)
Theorem run_teardown_last
    (dataset : H2OAutoML.Dataset) (config : H2OAutoML.TaskConfig)
    (w : H2OAutoML.world) :
  exists body,
    fst (H2OAutoML.run dataset config w [])
    = body ++ H2OAutoML.teardown_events w
    /\ existsb H2OAutoML.is_teardown body = false.
Proof.
  destruct w. run_unfold; run_cases;
    match goal with
    | |- exists b, ?l = b ++ ?t /\ _ =>
        exists (firstn (List.length l - List.length t) l);
        split; reflexivity
    end.
Qed.

(** X16. When the engine trained without producing a leader, [run] makes no
    prediction and saves nothing; it raises [NoResultError], unless the
    [finally] block raises, in which case that exception is the one
    raised. *)
Theorem run_without_leader
    (dataset : H2OAutoML.Dataset) (config : H2OAutoML.TaskConfig)
    (w : H2OAutoML.world) (u1 u2 : unit) (f1 f2 : H2OAutoML.frame) (d : nat) :
  H2OAutoML.w_init w = inr u1 ->
  H2OAutoML.w_import_train w = inr f1 ->
  H2OAutoML.w_import_test w = inr f2 ->
  H2OAutoML.w_automl w = inr u2 ->
  H2OAutoML.w_train w = inr d ->
  H2OAutoML.w_leader w = inr false ->
  snd (H2OAutoML.run dataset config w [])
  = inl (match H2OAutoML.teardown_error w with
         | Some e => e
         | None => H2OAutoML.NoResultError
         end)
  /\ existsb H2OAutoML.is_predict (fst (H2OAutoML.run dataset config w []))
     = false
  /\ existsb H2OAutoML.is_save (fst (H2OAutoML.run dataset config w []))
     = false.
Proof.
  destruct w; simpl. intros -> -> -> -> -> ->.
  run_unfold; run_cases; repeat split; reflexivity.
Qed.

Lemma run_without_leader_witness :
  snd (H2OAutoML.run
         (H2OAutoML.Build_Dataset "train.csv" "test.csv" 4)
         (H2OAutoML.Build_TaskConfig "auc" 2 2048 "task" 0 600 1 [] "out.csv")
         (H2OAutoML.Build_world (inr tt) (inr 1%nat) (inr 2%nat) (inr tt)
            (inr 42%nat) (inr false) (inr tt) (inr 3%nat) (inr 4%nat)
            (inr tt) (inr 7%nat) (inr true) (inr tt) (inr tt)) [])
  = inl H2OAutoML.NoResultError.
Proof.
  apply (proj1 (run_without_leader
                  (H2OAutoML.Build_Dataset "train.csv" "test.csv" 4)
                  (H2OAutoML.Build_TaskConfig "auc" 2 2048 "task" 0 600 1 []
                     "out.csv")
                  (H2OAutoML.Build_world (inr tt) (inr 1%nat) (inr 2%nat)
                     (inr tt) (inr 42%nat) (inr false) (inr tt) (inr 3%nat)
                     (inr 4%nat) (inr tt) (inr 7%nat) (inr true) (inr tt)
                     (inr tt))
                  tt tt 1%nat 2%nat 42%nat
                  eq_refl eq_refl eq_refl eq_refl eq_refl eq_refl)).
Defined.

(** X17. [run] returns its dictionary exactly when every call of the body
    is answered with a value, the leader is there and the [finally] block
    does not raise; the dictionary then holds the length of the leaderboard
    and the duration measured around the training, and the predictions have
    been saved. *)
Theorem run_returns_iff
    (dataset : H2OAutoML.Dataset) (config : H2OAutoML.TaskConfig)
    (w : H2OAutoML.world) (s : H2OAutoML.summary) :
  (snd (H2OAutoML.run dataset config w []) = inr s <->
   H2OAutoML.engine_answers w
   /\ H2OAutoML.w_leader w = inr true
   /\ H2OAutoML.w_train w = inr (H2OAutoML.training_duration s)
   /\ H2OAutoML.w_leaderboard_len w = inr (H2OAutoML.models_count s)
   /\ H2OAutoML.teardown_error w = None)
  /\ (snd (H2OAutoML.run dataset config w []) = inr s ->
      existsb H2OAutoML.is_save (fst (H2OAutoML.run dataset config w []))
      = true).
Proof.
  destruct s as [n d]. destruct w. unfold H2OAutoML.engine_answers. simpl.
  run_unfold; run_cases; (split; [split|]);
    try discriminate; try reflexivity;
    try (intros H; inversion H; subst;
         repeat split; eauto; fail);
    try (intros [[? [? [? [? [? [? [? [? [? [? ?]]]]]]]]]] [? [? [? ?]]]];
         repeat match goal with
                | H : exists _, _ |- _ => destruct H
                end;
         congruence).
Qed.

Lemma run_returns_iff_witness :
  snd (H2OAutoML.run
         (H2OAutoML.Build_Dataset "train.csv" "test.csv" 4)
         (H2OAutoML.Build_TaskConfig "auc" 2 2048 "task" 0 600 1 [] "out.csv")
         (H2OAutoML.Build_world (inr tt) (inr 1%nat) (inr 2%nat) (inr tt)
            (inr 42%nat) (inr true) (inr tt) (inr 3%nat) (inr 4%nat)
            (inr tt) (inr 7%nat) (inr true) (inr tt) (inr tt)) [])
  = inr (H2OAutoML.Build_summary 7 42).
Proof.
  apply (proj2 (proj1 (run_returns_iff
                         (H2OAutoML.Build_Dataset "train.csv" "test.csv" 4)
                         (H2OAutoML.Build_TaskConfig "auc" 2 2048 "task" 0
                            600 1 [] "out.csv")
                         (H2OAutoML.Build_world (inr tt) (inr 1%nat)
                            (inr 2%nat) (inr tt) (inr 42%nat) (inr true)
                            (inr tt) (inr 3%nat) (inr 4%nat) (inr tt)
                            (inr 7%nat) (inr true) (inr tt) (inr tt))
                         (H2OAutoML.Build_summary 7 42)))).
  unfold H2OAutoML.engine_answers; simpl.
  repeat split; eauto.
Defined.

(** X18. An exception of the [finally] block replaces whatever the body
    did: when the query of the connection, [remove_all] or [close] raises,
    [run] raises that exception, also after a training that succeeded and
    after the predictions were saved. *)
Theorem run_teardown_error_wins
    (dataset : H2OAutoML.Dataset) (config : H2OAutoML.TaskConfig)
    (w : H2OAutoML.world) (e : H2OAutoML.error) :
  H2OAutoML.teardown_error w = Some e ->
  snd (H2OAutoML.run dataset config w []) = inl e.
Proof.
  destruct w. unfold H2OAutoML.teardown_error at 1. simpl.
  intros H. run_unfold; run_cases;
    first [discriminate | inversion H; reflexivity].
Qed.

Lemma run_teardown_error_wins_witness :
  snd (H2OAutoML.run
         (H2OAutoML.Build_Dataset "train.csv" "test.csv" 4)
         (H2OAutoML.Build_TaskConfig "auc" 2 2048 "task" 0 600 1 [] "out.csv")
         (H2OAutoML.Build_world (inr tt) (inr 1%nat) (inr 2%nat) (inr tt)
            (inr 42%nat) (inr true) (inr tt) (inr 3%nat) (inr 4%nat)
            (inr tt) (inr 7%nat) (inr true)
            (inl (H2OAutoML.External "H2OConnectionError")) (inr tt)) [])
  = inl (H2OAutoML.External "H2OConnectionError").
Proof.
  apply (run_teardown_error_wins
           (H2OAutoML.Build_Dataset "train.csv" "test.csv" 4)
           (H2OAutoML.Build_TaskConfig "auc" 2 2048 "task" 0 600 1 []
              "out.csv")
           (H2OAutoML.Build_world (inr tt) (inr 1%nat) (inr 2%nat) (inr tt)
              (inr 42%nat) (inr true) (inr tt) (inr 3%nat) (inr 4%nat)
              (inr tt) (inr 7%nat) (inr true)
              (inl (H2OAutoML.External "H2OConnectionError")) (inr tt))).
  reflexivity.
Defined.

Lemma dict_get_metrics_None (k : string) :
  H2OAutoML.dict_get k H2OAutoML.metrics_mapping = None <->
  ~ In k ["acc"; "auc"; "logloss"; "mae"; "mse"; "rmse"; "rmsle"].
Proof.
  unfold H2OAutoML.metrics_mapping. simpl.
  repeat match goal with
         | |- context [String.eqb k ?m] =>
             destruct (String.eqb_spec k m);
             [subst; split; [discriminate | intros H; exfalso; apply H; tauto]
             |]
         end.
  split; [|reflexivity]. intros _ H.
  repeat (destruct H as [H|H]; [congruence|]). exact H.
Qed.

(** X19. A metric outside the seven names of the mapping does not stop
    [run]: a warning is logged, exactly in that case, and the engine is set
    up with no sort metric; for a metric of the mapping the engine is set up
    with the name the mapping gives. *)
Theorem run_metric_mapping
    (dataset : H2OAutoML.Dataset) (config : H2OAutoML.TaskConfig)
    (w : H2OAutoML.world) :
  (existsb H2OAutoML.is_warning (fst (H2OAutoML.run dataset config w []))
   = true <->
   ~ In (H2OAutoML.metric config)
        ["acc"; "auc"; "logloss"; "mae"; "mse"; "rmse"; "rmsle"])
  /\ (forall secs sm sd fp,
         In (H2OAutoML.NewH2OAutoML secs sm sd fp)
            (fst (H2OAutoML.run dataset config w [])) ->
         sm = H2OAutoML.dict_get (H2OAutoML.metric config)
                H2OAutoML.metrics_mapping)
  /\ (forall u f1 f2,
         H2OAutoML.w_init w = inr u ->
         H2OAutoML.w_import_train w = inr f1 ->
         H2OAutoML.w_import_test w = inr f2 ->
         In (H2OAutoML.NewH2OAutoML (H2OAutoML.max_runtime_seconds config)
               (H2OAutoML.dict_get (H2OAutoML.metric config)
                  H2OAutoML.metrics_mapping)
               (H2OAutoML.seed config) (H2OAutoML.framework_params config))
            (fst (H2OAutoML.run dataset config w []))).
Proof.
  rewrite <- dict_get_metrics_None.
  unfold H2OAutoML.run.
  generalize (H2OAutoML.dict_get (H2OAutoML.metric config)
                H2OAutoML.metrics_mapping).
  intros o. destruct w.
  unfold H2OAutoML.try_finally, H2OAutoML.run_body, H2OAutoML.run_finally,
    H2OAutoML.mbind, H2OAutoML.call, H2OAutoML.log, H2OAutoML.ret,
    H2OAutoML.raise.
  split; [|split].
  - destruct o; simpl; run_cases; split; intros;
      first [reflexivity | discriminate].
  - intros secs sm sd fp.
    destruct o; simpl; run_cases; intros H;
      repeat (destruct H as [H|H];
              [try discriminate; inversion H; reflexivity|]);
      destruct H.
  - simpl. intros u f1 f2 -> -> ->.
    destruct o; simpl; run_cases; simpl;
      repeat (first [left; reflexivity | right]).
Qed.

Lemma run_metric_mapping_witness :
  existsb H2OAutoML.is_warning
    (fst (H2OAutoML.run
            (H2OAutoML.Build_Dataset "train.csv" "test.csv" 4)
            (H2OAutoML.Build_TaskConfig "f1" 2 2048 "task" 0 600 1 []
               "out.csv")
            (H2OAutoML.Build_world (inr tt) (inr 1%nat) (inr 2%nat) (inr tt)
               (inr 42%nat) (inr true) (inr tt) (inr 3%nat) (inr 4%nat)
               (inr tt) (inr 7%nat) (inr true) (inr tt) (inr tt)) []))
  = true
  /\ In (H2OAutoML.NewH2OAutoML 600 None 1 [])
        (fst (H2OAutoML.run
                (H2OAutoML.Build_Dataset "train.csv" "test.csv" 4)
                (H2OAutoML.Build_TaskConfig "f1" 2 2048 "task" 0 600 1 []
                   "out.csv")
                (H2OAutoML.Build_world (inr tt) (inr 1%nat) (inr 2%nat)
                   (inr tt) (inr 42%nat) (inr true) (inr tt) (inr 3%nat)
                   (inr 4%nat) (inr tt) (inr 7%nat) (inr true) (inr tt)
                   (inr tt)) [])).
Proof.
  destruct (run_metric_mapping
              (H2OAutoML.Build_Dataset "train.csv" "test.csv" 4)
              (H2OAutoML.Build_TaskConfig "f1" 2 2048 "task" 0 600 1 []
                 "out.csv")
              (H2OAutoML.Build_world (inr tt) (inr 1%nat) (inr 2%nat)
                 (inr tt) (inr 42%nat) (inr true) (inr tt) (inr 3%nat)
                 (inr 4%nat) (inr tt) (inr 7%nat) (inr true) (inr tt)
                 (inr tt))) as [H1 [_ H3]].
  split.
  - apply (proj2 H1). simpl.
    intros H; repeat (destruct H as [H|H]; [discriminate|]); exact H.
  - apply (H3 tt 1%nat 2%nat); reflexivity.
Defined.

